(** * TruckersMP API proxy (main.go): a shallow embedding and its properties

    The program is a gin application.  Every route handler validates its
    numeric path parameters with [validateID] and hands an upstream path to
    [proxyRequest], which issues one request against [TruckersMPAPIBase] and
    relays the reply.

    Go values are embedded as follows.
    - [string] and [[]byte] are Rocq strings (sequences of 8-bit characters).
    - [int] is [Z] together with the 64-bit range test of [strconv.Atoi].
    - [http.Header] is a finite map from header names to value lists.
    - [*gin.Context] is threaded explicitly; a Go panic is the [Panicked]
      outcome.
    - The network, the JSON decoder, the clock and the process environment are
      the fields of [Env]; the general statements quantify over them.
    - The calls into gin, net/http, strconv, fmt and encoding/json are modelled
      after those libraries; [json.Unmarshal] is the decoder the concrete
      environments use. *)

From Stdlib Require Import ZArith Ascii String DecimalString DecimalPos DecimalFacts.
From Stdlib Require Import Floats.SpecFloat.
From stdpp Require Import gmap strings list fin_maps.

Set Warnings "-register-all".

Open Scope string_scope.
Open Scope list_scope.
Open Scope Z_scope.

(** ** Constants of main.go *)

Definition TruckersMPAPIBase : string := "https://api.truckersmp.com/v2".
Definition ServerPort : string := ":4004".

Definition StatusOK : Z := 200.
Definition StatusNoContent : Z := 204.
Definition StatusNotModified : Z := 304.
Definition StatusBadRequest : Z := 400.
Definition StatusNotFound : Z := 404.
Definition StatusInternalServerError : Z := 500.

(** ** strconv and fmt *)

Module strconv.

(** [strconv.IntSize] on the 64-bit targets the server is built for. *)
Definition intSize : Z := 64.
Definition maxInt : Z := 2 ^ (intSize - 1) - 1.
Definition minInt : Z := - 2 ^ (intSize - 1).

Definition digit (ch : ascii) : option Z :=
  let d := Z.of_N (N_of_ascii ch) - 48 in
  if (0 <=? d) && (d <=? 9) then Some d else None.

(** The digit loop [n = n*10 + int(ch)]; a byte outside '0'..'9' is a
    syntax error. *)
Fixpoint digits (n : Z) (s : string) : option Z :=
  match s with
  | EmptyString => Some n
  | String ch s' =>
      match digit ch with
      | Some d => digits (n * 10 + d) s'
      | None => None
      end
  end.

(** [strconv.Atoi]: an optional sign, then one or more decimal digits; the
    value has to fit [int].  [None] stands for a non-nil [err] (syntax or
    range). *)
Definition Atoi (s : string) : option Z :=
  let '(neg, s1) :=
    match s with
    | String "-" t => (true, t)
    | String "+" t => (false, t)
    | _ => (false, s)
    end in
  match s1 with
  | EmptyString => None
  | _ =>
      match digits 0 s1 with
      | Some n =>
          let v := if neg : bool then - n else n in
          if (minInt <=? v) && (v <=? maxInt) then Some v else None
      | None => None
      end
  end.

(** [strconv.Itoa], the rendering used by the [%d] verb. *)
Definition Itoa (n : Z) : string := NilZero.string_of_int (Z.to_int n).

End strconv.

Module fmt.

Inductive arg := I (n : Z) | S (s : string).

Definition verb (v : ascii) (a : arg) : string :=
  match v, a with
  | "d"%char, I n => strconv.Itoa n
  | "s"%char, S s => s
  | "d"%char, S s => "%!d(string=" +:+ s +:+ ")"
  | _, I n => "%!" +:+ String v ("(int=" +:+ strconv.Itoa n +:+ ")")
  | _, S s => "%!" +:+ String v ("(string=" +:+ s +:+ ")")
  end.

(** [fmt.Sprintf] for the formats of main.go: literal text and the verbs
    [%d] and [%s], each consuming the next operand. *)
Fixpoint Sprintf (format : string) (args : list arg) : string :=
  match format with
  | String "%" (String v rest) =>
      match args with
      | a :: args' => verb v a +:+ Sprintf rest args'
      | [] => "%!" +:+ String v ("(MISSING)" +:+ Sprintf rest [])
      end
  | String ch rest => String ch (Sprintf rest args)
  | EmptyString => EmptyString
  end.

End fmt.

(** ** net/http *)

(** [http.Header] is [map[string][]string].  net/http keeps the keys in
    canonical MIME form, and every key this program hands to [Set], [Add],
    [Get] and [Del] is a canonical literal or a key read back from a header
    map, so [CanonicalMIMEHeaderKey] acts as the identity on all of them. *)
Abbreviation http_Header := (gmap string (list string)).

Definition Header_Values (h : http_Header) (key : string) : list string :=
  default [] (h !! key).

Definition Header_Get (h : http_Header) (key : string) : string :=
  match Header_Values h key with
  | v :: _ => v
  | [] => ""
  end.

Definition Header_Set (key value : string) (h : http_Header) : http_Header :=
  <[key := [value]]> h.

Definition Header_Add (key value : string) (h : http_Header) : http_Header :=
  <[key := Header_Values h key ++ [value]]> h.

Definition Header_Del (key : string) (h : http_Header) : http_Header :=
  delete key h.

(** [for key, values := range h { for _, value := range values { f } }].
    Go visits the keys of a map in an unspecified order; the embedding takes
    an explicit enumeration [kvs] of the map. *)
Definition range_pairs {A : Type} (f : string → string → A → A)
    (kvs : list (string * list string)) (a : A) : A :=
  foldl (λ a kv, foldl (λ a v, f kv.1 v a) a kv.2) a kvs.

Definition range_Header {A : Type} (f : string → string → A → A)
    (h : http_Header) (a : A) : A :=
  range_pairs f (map_to_list h) a.

Inductive error := errorString (msg : string).

Record Request := {
  Method : string;
  URL : string;
  Header : http_Header
}.

(** [resp.Body]: a stream that [io.ReadAll] drains, or that fails while being
    read. *)
Inductive ReadCloser :=
  | Stream (data : string)
  | BrokenStream (err : error).

Definition ReadAll (r : ReadCloser) : string * option error :=
  match r with
  | Stream data => (data, None)
  | BrokenStream err => ("", Some err)
  end.

Record Response := {
  StatusCode : Z;
  Resp_Header : http_Header;
  Body : ReadCloser
}.

Record Client := {
  Timeout : Z;
  Transport : Request → Response + error
}.

(** [client.Do]: one round trip; a network failure or an expired [Timeout]
    surfaces as the error. *)
Definition Do (cl : Client) (req : Request) : Response + error :=
  Transport cl req.

(** ** Dynamic values: [interface{}] and [gin.H] *)

Inductive any :=
  | Nil
  | Bool (b : bool)
  | Int (n : Z)
  | Float64 (f : spec_float)
  | Str (s : string)
  | Slice (l : list any)
  | Map (m : gmap string any).

Definition H (fields : list (string * any)) : any := Map (list_to_map fields).

(** ** gin *)

(** What a render wrote into the response body: the [encoding/json] rendering
    of a value, or bytes as they are. *)
Inductive Chunk :=
  | JSONOf (obj : any)
  | Raw (data : string).

(** The calls into net/http that build and send upstream requests, in the
    order they were made. *)
Inductive Event :=
  | EvNewRequest (method url : string)
  | EvDo (req : Request).

(** gin's [responseWriter]: [w_written] is [size != noWritten], that is, the
    status line and headers are out. *)
Record responseWriter := {
  w_header : http_Header;
  w_status : Z;
  w_body : list Chunk;
  w_written : bool
}.

Record Context := {
  c_Request : Request;
  c_Params : list (string * string);
  c_Writer : responseWriter;
  c_aborted : bool;
  c_trace : list Event
}.

Definition set_Writer (w : responseWriter) (c : Context) : Context :=
  {| c_Request := c_Request c; c_Params := c_Params c; c_Writer := w;
     c_aborted := c_aborted c; c_trace := c_trace c |}.

Definition emit (e : Event) (c : Context) : Context :=
  {| c_Request := c_Request c; c_Params := c_Params c; c_Writer := c_Writer c;
     c_aborted := c_aborted c; c_trace := c_trace c ++ [e] |}.

(** A handler returns or panics; either way the context has the effects made
    so far. *)
Inductive Outcome :=
  | Returned (c : Context)
  | Panicked (reason : string) (c : Context).

Abbreviation HandlerFunc := (Context → Outcome).

Definition final (o : Outcome) : Context :=
  match o with
  | Returned c => c
  | Panicked _ c => c
  end.

(** ** The environment of the process *)

Record Env := {
  (** the error, if any, with which [http.NewRequest] rejects a method and URL *)
  NewRequest_err : string → string → option error;
  (** the network as seen through [http.Client] *)
  RoundTrip : Request → Response + error;
  (** [json.Unmarshal] into an [interface{}]; [None] is a non-nil error *)
  Unmarshal : string → option any;
  (** [os.Getenv] *)
  Getenv : string → string;
  (** [time.Now().Unix()] *)
  Now_Unix : Z;
  (** gin's trailing-slash recommendation for a path that has no route, and
      the redirect response gin writes when it recommends one *)
  tsr : string → bool;
  redirectTrailingSlash : Context → Context
}.

(** [http.NewRequest(method, url, nil)] returns either a request with no
    headers and a nil error, or a nil request and the error. *)
Definition NewRequest (E : Env) (method url : string)
    : option Request * option error :=
  match NewRequest_err E method url with
  | Some err => (None, Some err)
  | None =>
      (Some {| Method := if String.eqb method "" then "GET" else method;
               URL := url; Header := ∅ |}, None)
  end.

Module gin.

(** [c.Param]: the first path parameter of that name, else the empty
    string. *)
Fixpoint ByName (ps : list (string * string)) (name : string) : string :=
  match ps with
  | [] => ""
  | (k, v) :: ps' => if String.eqb k name then v else ByName ps' name
  end.

Definition Param (c : Context) (key : string) : string :=
  ByName (c_Params c) key.

(** [responseWriter.WriteHeader] *)
Definition WriteHeader (code : Z) (w : responseWriter) : responseWriter :=
  if (0 <? code) && negb (w_status w =? code) then
    if w_written w then w
    else {| w_header := w_header w; w_status := code;
            w_body := w_body w; w_written := false |}
  else w.

Definition WriteHeaderNow (w : responseWriter) : responseWriter :=
  {| w_header := w_header w; w_status := w_status w;
     w_body := w_body w; w_written := true |}.

(** [responseWriter.Write] *)
Definition Write (ch : Chunk) (w : responseWriter) : responseWriter :=
  {| w_header := w_header w; w_status := w_status w;
     w_body := w_body w ++ [ch]; w_written := true |}.

Definition set_header (h : http_Header) (w : responseWriter) : responseWriter :=
  {| w_header := h; w_status := w_status w;
     w_body := w_body w; w_written := w_written w |}.

(** [c.Status] *)
Definition Status (code : Z) (c : Context) : Context :=
  set_Writer (WriteHeader code (c_Writer c)) c.

(** [c.Header]: an empty value deletes the key, any other value replaces
    what the key held. *)
Definition Header (key value : string) (c : Context) : Context :=
  let w := c_Writer c in
  if String.eqb value "" then set_Writer (set_header (Header_Del key (w_header w)) w) c
  else set_Writer (set_header (Header_Set key value (w_header w)) w) c.

(** [render.writeContentType]: only when the writer has none yet. *)
Definition writeContentType (value : string) (w : responseWriter) : responseWriter :=
  match Header_Values (w_header w) "Content-Type" with
  | [] => set_header (<["Content-Type" := [value]]> (w_header w)) w
  | _ => w
  end.

Definition bodyAllowedForStatus (status : Z) : bool :=
  if (100 <=? status) && (status <=? 199) then false
  else if status =? StatusNoContent then false
  else if status =? StatusNotModified then false
  else true.

(** [c.Render]: the two renders of this program differ in the content type
    and in the chunk they write. *)
Definition Render (code : Z) (contentType : string) (ch : Chunk) (c : Context) : Context :=
  let c := Status code c in
  if bodyAllowedForStatus code then
    set_Writer (Write ch (writeContentType contentType (c_Writer c))) c
  else
    set_Writer (WriteHeaderNow (writeContentType contentType (c_Writer c))) c.

Definition jsonContentType : string := "application/json; charset=utf-8".

(** [c.JSON] *)
Definition JSON (code : Z) (obj : any) (c : Context) : Context :=
  Render code jsonContentType (JSONOf obj) c.

(** [c.Data] *)
Definition Data (code : Z) (contentType : string) (data : string) (c : Context) : Context :=
  Render code contentType (Raw data) c.

Definition Abort (c : Context) : Context :=
  {| c_Request := c_Request c; c_Params := c_Params c; c_Writer := c_Writer c;
     c_aborted := true; c_trace := c_trace c |}.

(** [c.AbortWithStatus] *)
Definition AbortWithStatus (code : Z) (c : Context) : Context :=
  let c := Status code c in
  Abort (set_Writer (WriteHeaderNow (c_Writer c)) c).

(** [gin.Logger()] writes a log line and leaves the response alone. *)
Definition Logger (next : HandlerFunc) : HandlerFunc := next.

(** [gin.Recovery()]: a panic of a later handler is answered with 500. *)
Definition Recovery (next : HandlerFunc) : HandlerFunc :=
  λ c, match next c with
       | Returned c' => Returned c'
       | Panicked _ c' => Returned (AbortWithStatus StatusInternalServerError c')
       end.

End gin.

(** ** main.go *)

Record ProxyServer := { client : Client }.

Definition Second : Z := 1000000000.

Definition NewProxyServer (E : Env) : ProxyServer :=
  {| client := {| Timeout := 30 * Second; Transport := RoundTrip E |} |}.

Definition req_set_Header (h : http_Header) (req : Request) : Request :=
  {| Method := Method req; URL := URL req; Header := h |}.

(** Generic proxy handler that forwards requests to the TruckersMP API. *)
Definition proxyRequest (E : Env) (p : ProxyServer) (c : Context) (endpoint : string)
    : Outcome :=
  (* Build the full URL *)
  let url := TruckersMPAPIBase +:+ endpoint in
  (* Create the request *)
  let '(req, err) := NewRequest E (Method (c_Request c)) url in
  let c := emit (EvNewRequest (Method (c_Request c)) url) c in
  (* req.Header.Set runs before err is looked at: a nil req is dereferenced *)
  match req with
  | None => Panicked "invalid memory address or nil pointer dereference" c
  | Some req =>
      let req := req_set_Header (Header_Set "User-Agent" "PostmanRuntime/7.36.1" (Header req)) req in
      let req := req_set_Header (Header_Set "Accept" "application/json" (Header req)) req in
      match err with
      | Some _ =>
          Returned (gin.JSON StatusInternalServerError
            (H [("error", Bool true); ("message", Str "Failed to create request")]) c)
      | None =>
          (* Copy headers from original request *)
          let req := req_set_Header
            (range_Header Header_Add (Header (c_Request c)) (Header req)) req in
          (* Make the request *)
          let c := emit (EvDo req) c in
          match Do (client p) req with
          | inr _ =>
              Returned (gin.JSON StatusInternalServerError
                (H [("error", Bool true);
                    ("message", Str "Failed to fetch data from TruckersMP API")]) c)
          | inl resp =>
              (* Read the response body *)
              match ReadAll (Body resp) with
              | (_, Some _) =>
                  Returned (gin.JSON StatusInternalServerError
                    (H [("error", Bool true); ("message", Str "Failed to read response")]) c)
              | (body, None) =>
                  (* Copy response headers *)
                  let c := range_Header gin.Header (Resp_Header resp) c in
                  (* Set the status code and return the response *)
                  let c := gin.Status (StatusCode resp) c in
                  (* Try to parse as JSON and return formatted, otherwise return raw *)
                  match Unmarshal E body with
                  | Some jsonResponse =>
                      Returned (gin.JSON (StatusCode resp) jsonResponse c)
                  | None =>
                      Returned (gin.Data (StatusCode resp)
                        (Header_Get (Resp_Header resp) "Content-Type") body c)
                  end
              end
          end
      end
  end.

(** Validation helper: the parsed id and [true], or a 400 response, [0] and
    [false]. *)
Definition validateID (c : Context) (paramName : string) : Context * (Z * bool) :=
  let idStr := gin.Param c paramName in
  match strconv.Atoi idStr with
  | Some id =>
      if id <? 0 then
        (gin.JSON StatusBadRequest
           (H [("error", Bool true);
               ("message", Str (fmt.Sprintf "Invalid %s parameter" [fmt.S paramName]))]) c,
         (0, false))
      else (c, (id, true))
  | None =>
      (gin.JSON StatusBadRequest
         (H [("error", Bool true);
             ("message", Str (fmt.Sprintf "Invalid %s parameter" [fmt.S paramName]))]) c,
       (0, false))
  end.

(** ** gin's router *)

Inductive seg :=
  | Lit (s : string)
  | Par (name : string).

(** The text up to the first '/', and what follows that '/'. *)
Fixpoint cut_slash (s : string) : string * option string :=
  match s with
  | EmptyString => (EmptyString, None)
  | String "/" rest => (EmptyString, Some rest)
  | String ch rest =>
      let '(x, r) := cut_slash rest in (String ch x, r)
  end.

Fixpoint split_fuel (fuel : nat) (s : string) : list string :=
  match fuel with
  | O => [s]
  | Datatypes.S fuel' =>
      match cut_slash s with
      | (x, None) => [x]
      | (x, Some rest) => x :: split_fuel fuel' rest
      end
  end.

(** The segments of an absolute path: ["/a/b"] has the segments [a] and [b]. *)
Definition segments (path : string) : option (list string) :=
  match path with
  | String "/" rest => Some (split_fuel (String.length rest) rest)
  | _ => None
  end.

Definition parse_seg (s : string) : seg :=
  match s with
  | String ":" name => Par name
  | _ => Lit s
  end.

Definition parse_pattern (pattern : string) : list seg :=
  match segments pattern with
  | Some ss => parse_seg <$> ss
  | None => []
  end.

(** A route during the descent: what is left of its pattern, the parameters
    bound so far, its handler. *)
Definition node : Type := list seg * list (string * string) * HandlerFunc.

Definition step_lit (x : string) (n : node) : option node :=
  match n with
  | (Lit s :: pat, ps, h) => if String.eqb s x then Some (pat, ps, h) else None
  | _ => None
  end.

Definition step_par (x : string) (n : node) : option node :=
  match n with
  | (Par name :: pat, ps, h) => Some (pat, ps ++ [(name, x)], h)
  | _ => None
  end.

Definition at_end (n : node) : option (HandlerFunc * list (string * string)) :=
  match n with
  | ([], ps, h) => Some (h, ps)
  | _ => None
  end.

(** [node.getValue]: a static child is tried before the parameter child, and
    the parameter child is the fallback when the static subtree has no match;
    a parameter never binds the empty string. *)
Fixpoint getValue (path : list string) (nodes : list node)
    : option (HandlerFunc * list (string * string)) :=
  match path with
  | [] => head (omap at_end nodes)
  | x :: path' =>
      match getValue path' (omap (step_lit x) nodes) with
      | Some r => Some r
      | None =>
          if String.eqb x "" then None
          else getValue path' (omap (step_par x) nodes)
      end
  end.

Record Engine := {
  Handlers : list (HandlerFunc → HandlerFunc);
  routes : list (string * string * HandlerFunc);
  noRoute : HandlerFunc
}.

(** [gin.Default()] *)
Definition Default : Engine :=
  {| Handlers := [gin.Logger; gin.Recovery];
     routes := [];
     noRoute := Returned |}.

Definition Use (m : HandlerFunc → HandlerFunc) (r : Engine) : Engine :=
  {| Handlers := Handlers r ++ [m]; routes := routes r; noRoute := noRoute r |}.

Definition GET (relativePath : string) (h : HandlerFunc) (r : Engine) : Engine :=
  {| Handlers := Handlers r;
     routes := routes r ++ [("GET", relativePath, h)];
     noRoute := noRoute r |}.

Definition NoRoute (h : HandlerFunc) (r : Engine) : Engine :=
  {| Handlers := Handlers r; routes := routes r; noRoute := h |}.

(** The registered middleware around a last handler; each middleware runs the
    rest of the chain where it calls [c.Next()]. *)
Definition chain (r : Engine) (h : HandlerFunc) : HandlerFunc :=
  foldr (λ m k, m k) h (Handlers r).

Definition tree (r : Engine) (method : string) : list node :=
  omap (λ e, match e with
             | (m, pattern, h) =>
                 if String.eqb m method then Some (parse_pattern pattern, [], h) else None
             end) (routes r).

Definition reset (req : Request) : Context :=
  {| c_Request := req; c_Params := [];
     c_Writer := {| w_header := ∅; w_status := StatusOK; w_body := []; w_written := false |};
     c_aborted := false; c_trace := [] |}.

Definition set_Params (ps : list (string * string)) (c : Context) : Context :=
  {| c_Request := c_Request c; c_Params := ps; c_Writer := c_Writer c;
     c_aborted := c_aborted c; c_trace := c_trace c |}.

Definition set_status (code : Z) (c : Context) : Context :=
  set_Writer {| w_header := w_header (c_Writer c); w_status := code;
                w_body := w_body (c_Writer c); w_written := w_written (c_Writer c) |} c.

Definition default404Body : string := "404 page not found".

(** [serveError] *)
Definition serveError (code : Z) (defaultMessage : string) (handlers : HandlerFunc)
    (c : Context) : Outcome :=
  match handlers (set_status code c) with
  | Returned c' =>
      let w := c_Writer c' in
      if w_written w then Returned c'
      else if w_status w =? code then
        Returned (set_Writer
          (gin.Write (Raw defaultMessage)
             (gin.set_header (<["Content-Type" := ["text/plain"]]> (w_header w)) w)) c')
      else Returned (set_Writer (gin.WriteHeaderNow w) c')
  | Panicked reason c' => Panicked reason c'
  end.

(** [Engine.handleHTTPRequest] with gin's default settings: trailing-slash
    redirects on, fixed-path redirects and "method not allowed" off. *)
Definition handleHTTPRequest (E : Env) (r : Engine) (c : Context) : Outcome :=
  let httpMethod := Method (c_Request c) in
  let rPath := URL (c_Request c) in
  let unmatched := serveError StatusNotFound default404Body (chain r (noRoute r)) c in
  match tree r httpMethod with
  | [] => unmatched
  | root =>
      match from_option (λ ss, getValue ss root) None (segments rPath) with
      | Some (h, ps) =>
          match chain r h (set_Params ps c) with
          | Returned c' => Returned (set_Writer (gin.WriteHeaderNow (c_Writer c')) c')
          | Panicked reason c' => Panicked reason c'
          end
      | None =>
          if negb (String.eqb httpMethod "CONNECT") && negb (String.eqb rPath "/")
             && tsr E rPath
          then Returned (redirectTrailingSlash E c)
          else unmatched
      end
  end.

(** ** setupRoutes *)

Definition allowedOrigin (E : Env) : string :=
  let allowedOrigin := Getenv E "ORIGIN" in
  if String.eqb allowedOrigin "" then "*" else allowedOrigin.

(** The CORS middleware. *)
Definition cors (E : Env) (next : HandlerFunc) : HandlerFunc :=
  λ c,
    let c := gin.Header "Access-Control-Allow-Origin" (allowedOrigin E) c in
    let c := gin.Header "Access-Control-Allow-Methods" "GET, POST, PUT, DELETE, OPTIONS" c in
    let c := gin.Header "Access-Control-Allow-Headers" "Content-Type, Authorization" c in
    if String.eqb (Method (c_Request c)) "OPTIONS" then Returned (gin.AbortWithStatus 204 c)
    else next c.

Definition health (E : Env) : HandlerFunc :=
  λ c, Returned (gin.JSON StatusOK
         (H [("status", Str "healthy");
             ("service", Str "TruckersMP API Proxy");
             ("timestamp", Int (Now_Unix E))]) c).

(** [func(c) { p.proxyRequest(c, endpoint) }] *)
Definition forward (E : Env) (p : ProxyServer) (endpoint : string) : HandlerFunc :=
  λ c, proxyRequest E p c endpoint.

(** [func(c) { if id, valid := validateID(c, "id"); valid {
       p.proxyRequest(c, fmt.Sprintf(format, id)) } }] *)
Definition forwardID (E : Env) (p : ProxyServer) (format : string) : HandlerFunc :=
  λ c,
    let '(c, (id, valid)) := validateID c "id" in
    if valid then proxyRequest E p c (fmt.Sprintf format [fmt.I id])
    else Returned c.

(** [func(c) { if id, valid := validateID(c, "id"); valid {
       if subID, valid := validateID(c, name); valid {
         p.proxyRequest(c, fmt.Sprintf(format, id, subID)) } } }] *)
Definition forwardID2 (E : Env) (p : ProxyServer) (name format : string) : HandlerFunc :=
  λ c,
    let '(c, (id, valid)) := validateID c "id" in
    if valid then
      let '(c, (subID, valid)) := validateID c name in
      if valid then proxyRequest E p c (fmt.Sprintf format [fmt.I id; fmt.I subID])
      else Returned c
    else Returned c.

Definition notFound : HandlerFunc :=
  λ c, Returned (gin.JSON StatusNotFound
         (H [("error", Bool true); ("message", Str "Endpoint not found")]) c).

Definition setupRoutes (E : Env) (p : ProxyServer) : Engine :=
  let r := Default in
  let r := Use (cors E) r in
  let r := GET "/health" (health E) r in
  let r := GET "/player/:id" (forwardID E p "/player/%d") r in
  let r := GET "/bans/:id" (forwardID E p "/bans/%d") r in
  let r := GET "/servers" (forward E p "/servers") r in
  let r := GET "/game_time" (forward E p "/game_time") r in
  let r := GET "/events" (forward E p "/events") r in
  let r := GET "/events/:id" (forwardID E p "/events/%d") r in
  let r := GET "/events/user/:id" (forwardID E p "/events/user/%d") r in
  let r := GET "/vtc" (forward E p "/vtc") r in
  let r := GET "/vtc/:id" (forwardID E p "/vtc/%d") r in
  let r := GET "/vtc/:id/news" (forwardID E p "/vtc/%d/news") r in
  let r := GET "/vtc/:id/news/:news_id" (forwardID2 E p "news_id" "/vtc/%d/news/%d") r in
  let r := GET "/vtc/:id/roles" (forwardID E p "/vtc/%d/roles") r in
  let r := GET "/vtc/:id/role/:role_id" (forwardID2 E p "role_id" "/vtc/%d/role/%d") r in
  let r := GET "/vtc/:id/members" (forwardID E p "/vtc/%d/members") r in
  let r := GET "/vtc/:id/member/:member_id" (forwardID2 E p "member_id" "/vtc/%d/member/%d") r in
  let r := GET "/vtc/:id/events" (forwardID E p "/vtc/%d/events") r in
  let r := GET "/vtc/:id/events/:event_id" (forwardID2 E p "event_id" "/vtc/%d/events/%d") r in
  let r := GET "/vtc/:id/events/attending" (forwardID E p "/vtc/%d/events/attending") r in
  let r := GET "/vtc/:id/partners" (forwardID E p "/vtc/%d/partners") r in
  let r := GET "/version" (forward E p "/version") r in
  let r := GET "/rules" (forward E p "/rules") r in
  NoRoute notFound r.

(** [Engine.ServeHTTP] *)
Definition ServeHTTP (E : Env) (r : Engine) (req : Request) : Outcome :=
  handleHTTPRequest E r (reset req).

(** What [main] serves for one inbound request. *)
Definition serve (E : Env) (req : Request) : Outcome :=
  ServeHTTP E (setupRoutes E (NewProxyServer E)) req.


(** ** encoding/json: [json.Unmarshal] into an [interface{}]

    The decoder first checks that the input is one JSON text (RFC 8259,
    nesting at most [maxNestingDepth]); it then stores objects as
    [map[string]interface{}] (a repeated key keeps its last value), arrays as
    [[]interface{}], strings coerced to valid UTF-8, and every number as the
    [float64] that [strconv.ParseFloat] returns.  A number beyond the range of
    [float64] is an error. *)

Module json.

Definition byte (ch : ascii) : Z := Z.of_N (N_of_ascii ch).
Definition chr (n : Z) : ascii := ascii_of_N (Z.to_N n).

Definition maxNestingDepth : Z := 10000.

Definition isSpace (ch : ascii) : bool :=
  let b := byte ch in (b =? 32) || (b =? 9) || (b =? 13) || (b =? 10).

Fixpoint skip (s : string) : string :=
  match s with
  | String ch r => if isSpace ch then skip r else s
  | EmptyString => s
  end.

Fixpoint strip_prefix (p s : string) : option string :=
  match p with
  | EmptyString => Some s
  | String a p' =>
      match s with
      | String b s' => if Ascii.eqb a b then strip_prefix p' s' else None
      | EmptyString => None
      end
  end.

(** *** Numbers *)

Fixpoint span_digits (s : string) : string * string :=
  match s with
  | String ch r =>
      match strconv.digit ch with
      | Some _ => let '(d, r') := span_digits r in (String ch d, r')
      | None => (EmptyString, s)
      end
  | EmptyString => (EmptyString, EmptyString)
  end.

Definition digits_value (d : string) : Z := default 0 (strconv.digits 0 d).

Definition scan_int (s : string) : option (string * string) :=
  match s with
  | String "0" r => Some ("0", r)
  | _ =>
      match span_digits s with
      | (EmptyString, _) => None
      | (d, r) => Some (d, r)
      end
  end.

Definition scan_frac (s : string) : option (string * string) :=
  match s with
  | String "." r =>
      match span_digits r with
      | (EmptyString, _) => None
      | (d, r') => Some (d, r')
      end
  | _ => Some (EmptyString, s)
  end.

Definition scan_exp (s : string) : option (Z * string) :=
  match s with
  | String ch r =>
      if (byte ch =? 101) || (byte ch =? 69) then
        let '(sign, r1) :=
          match r with
          | String "+" t => (1, t)
          | String "-" t => (-1, t)
          | _ => (1, r)
          end in
        match span_digits r1 with
        | (EmptyString, _) => None
        | (d, r') => Some (sign * digits_value d, r')
        end
      else Some (0, s)
  | EmptyString => Some (0, s)
  end.

(** [strconv.ParseFloat(s, 64)] on the decimal [(-1)^neg * m * 10^e10], where
    [m] has [ndigits] digits: the nearest [float64], ties to even; [None] is
    the range error.  The quotient of the division carries 64 bits and a
    sticky bit, which rounds as the exact value does. *)
Definition ParseFloat (neg : bool) (m e10 ndigits : Z) : option spec_float :=
  if m =? 0 then Some (S754_zero neg)
  else if 309 <? e10 then None
  else if ndigits + e10 <? -330 then Some (S754_zero neg)
  else
    let f :=
      if 0 <=? e10 then binary_normalize 53 1024 (m * 10 ^ e10) 0 false
      else
        let d := 10 ^ (- e10) in
        let k := Z.max 0 (Z.log2 d - Z.log2 m) + 64 in
        let q := (m * 2 ^ k) / d in
        let sticky := if (m * 2 ^ k) mod d =? 0 then 0 else 1 in
        binary_normalize 53 1024 (2 * q + sticky) (- k - 1) false in
    match f with
    | S754_finite _ mf ef => Some (S754_finite neg mf ef)
    | S754_zero _ => Some (S754_zero neg)
    | _ => None
    end.

Definition number (s : string) : option (spec_float * string) :=
  let '(neg, s1) :=
    match s with
    | String "-" t => (true, t)
    | _ => (false, s)
    end in
  match scan_int s1 with
  | None => None
  | Some (i, s2) =>
      match scan_frac s2 with
      | None => None
      | Some (f, s3) =>
          match scan_exp s3 with
          | None => None
          | Some (e, s4) =>
              let ds := i +:+ f in
              match ParseFloat neg (digits_value ds)
                      (e - Z.of_nat (String.length f)) (Z.of_nat (String.length ds)) with
              | Some x => Some (x, s4)
              | None => None
              end
          end
      end
  end.

(** *** Strings *)

Definition hex (ch : ascii) : option Z :=
  let b := byte ch in
  if (48 <=? b) && (b <=? 57) then Some (b - 48)
  else if (97 <=? b) && (b <=? 102) then Some (b - 87)
  else if (65 <=? b) && (b <=? 70) then Some (b - 55)
  else None.

Definition hex4 (a b c d : ascii) : option Z :=
  match hex a, hex b, hex c, hex d with
  | Some a, Some b, Some c, Some d => Some (((a * 16 + b) * 16 + c) * 16 + d)
  | _, _, _, _ => None
  end.

Definition bytes (l : list Z) : string := string_of_list_ascii (chr <$> l).

Definition ReplacementChar : Z := 65533.

(** [utf8.EncodeRune] *)
Definition EncodeRune (r : Z) : string :=
  let r := if (r <? 0) || (1114111 <? r) || ((55296 <=? r) && (r <=? 57343))
           then ReplacementChar else r in
  if r <? 128 then bytes [r]
  else if r <? 2048 then bytes [192 + r / 64; 128 + r mod 64]
  else if r <? 65536 then bytes [224 + r / 4096; 128 + (r / 64) mod 64; 128 + r mod 64]
  else bytes [240 + r / 262144; 128 + (r / 4096) mod 64; 128 + (r / 64) mod 64; 128 + r mod 64].

Definition isSurrogate (r : Z) : bool := (55296 <=? r) && (r <? 57344).

(** [utf16.DecodeRune] *)
Definition DecodeSurrogates (r1 r2 : Z) : Z :=
  if (55296 <=? r1) && (r1 <? 56320) && (56320 <=? r2) && (r2 <? 57344)
  then (r1 - 55296) * 1024 + (r2 - 56320) + 65536
  else ReplacementChar.

Definition simple_escape (e : ascii) : option ascii :=
  let b := byte e in
  if (b =? 34) || (b =? 92) || (b =? 47) then Some e
  else if b =? 98 then Some (chr 8)
  else if b =? 102 then Some (chr 12)
  else if b =? 110 then Some (chr 10)
  else if b =? 114 then Some (chr 13)
  else if b =? 116 then Some (chr 9)
  else None.

Definition prepend (x : string) (r : option (string * string)) : option (string * string) :=
  match r with
  | Some (y, rest) => Some (x +:+ y, rest)
  | None => None
  end.

(** The text of a string literal after its opening quote, with the escapes
    resolved, and what follows the closing quote. *)
Fixpoint unquote (s : string) : option (string * string) :=
  match s with
  | EmptyString => None
  | String ch r =>
      if byte ch =? 34 then Some (EmptyString, r)
      else if byte ch =? 92 then
        match r with
        | EmptyString => None
        | String e r1 =>
            if byte e =? 117 then
              match r1 with
              | String a (String b (String c (String d r2))) =>
                  match hex4 a b c d with
                  | None => None
                  | Some rr =>
                      if isSurrogate rr then
                        match r2 with
                        | String "\" (String "u" (String a' (String b' (String c' (String d' r3))))) =>
                            match hex4 a' b' c' d' with
                            | Some rr1 =>
                                if DecodeSurrogates rr rr1 =? ReplacementChar
                                then prepend (EncodeRune ReplacementChar) (unquote r2)
                                else prepend (EncodeRune (DecodeSurrogates rr rr1)) (unquote r3)
                            | None => prepend (EncodeRune ReplacementChar) (unquote r2)
                            end
                        | _ => prepend (EncodeRune ReplacementChar) (unquote r2)
                        end
                      else prepend (EncodeRune rr) (unquote r2)
                  end
              | _ => None
              end
            else
              match simple_escape e with
              | Some x => prepend (String x EmptyString) (unquote r1)
              | None => None
              end
        end
      else if byte ch <? 32 then None
      else prepend (String ch EmptyString) (unquote r)
  end.

Definition between (lo hi : Z) (ch : ascii) : bool := (lo <=? byte ch) && (byte ch <=? hi).

(** The length of the UTF-8 encoding that starts with [a], given the bytes
    after it; [0] when there is none. *)
Definition rune_len (a : ascii) (r : string) : nat :=
  let x := byte a in
  match r with
  | String b r1 =>
      if (194 <=? x) && (x <=? 223) && between 128 191 b then 2%nat
      else
        match r1 with
        | String c r2 =>
            if ((x =? 224) && between 160 191 b
                || ((225 <=? x) && (x <=? 236) || (238 <=? x) && (x <=? 239)) && between 128 191 b
                || (x =? 237) && between 128 159 b) && between 128 191 c then 3%nat
            else
              match r2 with
              | String d _ =>
                  if ((x =? 240) && between 144 191 b
                      || (241 <=? x) && (x <=? 243) && between 128 191 b
                      || (x =? 244) && between 128 143 b)
                     && between 128 191 c && between 128 191 d then 4%nat
                  else 0%nat
              | EmptyString => 0%nat
              end
        | EmptyString => 0%nat
        end
  | EmptyString => 0%nat
  end.

(** Coercion to well-formed UTF-8: each byte that starts no encoding becomes
    U+FFFD. *)
Fixpoint toValidUTF8 (s : string) : string :=
  match s with
  | EmptyString => EmptyString
  | String a r =>
      if byte a <? 128 then String a (toValidUTF8 r)
      else
        match rune_len a r, r with
        | 2%nat, String b r1 => String a (String b (toValidUTF8 r1))
        | 3%nat, String b (String c r2) => String a (String b (String c (toValidUTF8 r2)))
        | 4%nat, String b (String c (String d r3)) =>
            String a (String b (String c (String d (toValidUTF8 r3))))
        | _, _ => EncodeRune ReplacementChar +:+ toValidUTF8 r
        end
  end.

(** *** Values *)

Fixpoint value (fuel : nat) (depth : Z) (s : string) {struct fuel} : option (any * string) :=
  match fuel with
  | O => None
  | Datatypes.S fuel' =>
      match s with
      | EmptyString => None
      | String ch r =>
          if byte ch =? 123 then
            if depth + 1 <=? maxNestingDepth then
              match skip r with
              | String "}" r' => Some (Map ∅, r')
              | r' =>
                  match members fuel' (depth + 1) r' ∅ with
                  | Some (m, r'') => Some (Map m, r'')
                  | None => None
                  end
              end
            else None
          else if byte ch =? 91 then
            if depth + 1 <=? maxNestingDepth then
              match skip r with
              | String "]" r' => Some (Slice [], r')
              | r' =>
                  match elements fuel' (depth + 1) r' [] with
                  | Some (l, r'') => Some (Slice l, r'')
                  | None => None
                  end
              end
            else None
          else if byte ch =? 34 then
            match unquote r with
            | Some (x, r') => Some (Str (toValidUTF8 x), r')
            | None => None
            end
          else
            match strip_prefix "true" s, strip_prefix "false" s, strip_prefix "null" s with
            | Some r', _, _ => Some (Bool true, r')
            | _, Some r', _ => Some (Bool false, r')
            | _, _, Some r' => Some (Nil, r')
            | None, None, None =>
                match number s with
                | Some (f, r') => Some (Float64 f, r')
                | None => None
                end
            end
      end
  end
with elements (fuel : nat) (depth : Z) (s : string) (acc : list any) {struct fuel}
    : option (list any * string) :=
  match fuel with
  | O => None
  | Datatypes.S fuel' =>
      match value fuel' depth s with
      | Some (v, r) =>
          match skip r with
          | String "," r' => elements fuel' depth (skip r') (acc ++ [v])
          | String "]" r' => Some (acc ++ [v], r')
          | _ => None
          end
      | None => None
      end
  end
with members (fuel : nat) (depth : Z) (s : string) (acc : gmap string any) {struct fuel}
    : option (gmap string any * string) :=
  match fuel with
  | O => None
  | Datatypes.S fuel' =>
      match s with
      | String "034" r =>
          match unquote r with
          | Some (k, r1) =>
              match skip r1 with
              | String ":" r2 =>
                  match value fuel' depth (skip r2) with
                  | Some (v, r3) =>
                      match skip r3 with
                      | String "," r4 =>
                          members fuel' depth (skip r4) (<[toValidUTF8 k := v]> acc)
                      | String "}" r4 => Some (<[toValidUTF8 k := v]> acc, r4)
                      | _ => None
                      end
                  | None => None
                  end
              | _ => None
              end
          | None => None
          end
      | _ => None
      end
  end.

(** [json.Unmarshal(data, &v)] for [var v interface{}]; [None] is a non-nil
    error. *)
Definition Unmarshal (data : string) : option any :=
  match value (2 * String.length data + 2) 0 (skip data) with
  | Some (v, r) =>
      match skip r with
      | EmptyString => Some v
      | _ => None
      end
  | None => None
  end.

End json.

(** ** Notions used by the statements *)

(** Nothing of the response is out yet and no content type is chosen: the
    state in which the middleware chain hands a context to a route handler. *)
Definition pristine (c : Context) : Prop :=
  w_written (c_Writer c) = false
  ∧ w_body (c_Writer c) = []
  ∧ w_header (c_Writer c) !! "Content-Type" = None.

(** The two headers every upstream request starts with. *)
Definition defaultHeaders : http_Header :=
  Header_Set "Accept" "application/json"
    (Header_Set "User-Agent" "PostmanRuntime/7.36.1" ∅).

(** The request [proxyRequest] hands to [client.Do] once [http.NewRequest]
    has accepted the method and URL. *)
Definition upstreamRequest (c : Context) (endpoint : string) : Request :=
  {| Method := if String.eqb (Method (c_Request c)) "" then "GET" else Method (c_Request c);
     URL := TruckersMPAPIBase +:+ endpoint;
     Header := range_Header Header_Add (Header (c_Request c)) defaultHeaders |}.

(** The context when [client.Do] returns. *)
Definition called (c : Context) (endpoint : string) : Context :=
  emit (EvDo (upstreamRequest c endpoint))
    (emit (EvNewRequest (Method (c_Request c)) (TruckersMPAPIBase +:+ endpoint)) c).

Definition errorBody (message : string) : any :=
  H [("error", Bool true); ("message", Str message)].


(** [validateID] rejects the string. *)
Definition rejected (s : string) : bool :=
  match strconv.Atoi s with
  | Some id => id <? 0
  | None => true
  end.

Definition pattern_params (pattern : string) : list string :=
  omap (λ sg, match sg with Par name => Some name | Lit _ => None end)
       (parse_pattern pattern).

(** The first parameter of the list that [validateID] rejects. *)
Fixpoint first_rejected (c : Context) (names : list string) : option string :=
  match names with
  | [] => None
  | name :: names' =>
      if rejected (gin.Param c name) then Some name else first_rejected c names'
  end.

(** A route pattern with each parameter replaced by the decimal rendering of
    its parsed value. *)
Definition render_seg (c : Context) (sg : seg) : string :=
  match sg with
  | Lit s => "/" +:+ s
  | Par name => "/" +:+ strconv.Itoa (default 0 (strconv.Atoi (gin.Param c name)))
  end.

Definition instantiate (c : Context) (pattern : string) : string :=
  foldr (λ sg acc, render_seg c sg +:+ acc) EmptyString (parse_pattern pattern).

(** ** Concrete environments and requests *)

(** [stringContainsCTLByte] of net/url: [url.Parse] refuses such a URL. *)
Fixpoint stringContainsCTLByte (s : string) : bool :=
  match s with
  | EmptyString => false
  | String ch r =>
      (json.byte ch <? 32) || (json.byte ch =? 127) || stringContainsCTLByte r
  end.

(** An environment whose upstream always gives [reply]. *)
Definition replying (reply : Response + error) : Env :=
  {| NewRequest_err := λ _ url,
       if stringContainsCTLByte url
       then Some (errorString "net/url: invalid control character in URL")
       else None;
     RoundTrip := λ _, reply;
     Unmarshal := json.Unmarshal;
     Getenv := λ _, EmptyString;
     Now_Unix := 1700000000;
     tsr := λ _, false;
     redirectTrailingSlash := λ c, c |}.

Definition textReply (code : Z) (contentType body : string) : Response + error :=
  inl {| StatusCode := code;
         Resp_Header := {["Content-Type" := [contentType]]};
         Body := Stream body |}.

Definition timeout : Response + error :=
  inr (errorString "context deadline exceeded (Client.Timeout exceeded while awaiting headers)").

(** The double quote character, as a string. *)
Definition quote : string := String "034" EmptyString.

(** A player document as the TruckersMP API sends it, cut down to the one
    field: an object with the key steamID64 and a number. *)
Definition playerBody (steamID64 : string) : string :=
  "{" +:+ quote +:+ "steamID64" +:+ quote +:+ ":" +:+ steamID64 +:+ "}".

(** The integer that a [float64] with a non-negative exponent is. *)
Definition Float64_integer (f : spec_float) : option Z :=
  match f with
  | S754_zero _ => Some 0
  | S754_finite s m e =>
      if 0 <=? e then Some ((if s then -1 else 1) * Z.pos m * 2 ^ e) else None
  | _ => None
  end.

Definition get (path : string) : Request :=
  {| Method := "GET"; URL := path; Header := {["Accept" := ["text/html"]]} |}.

(** An upstream path with the byte 127 in it. *)
Definition ctlEndpoint : string := String "/" (String "127" EmptyString).

(** What a key holds after [c.Header(key, v)] for each [v] of [vs] in turn. *)
Definition settle (o : option (list string)) (vs : list string) : option (list string) :=
  foldl (λ o v, if String.eqb v EmptyString then None else Some [v]) o vs.

(** A context as the router hands it to a handler, before any middleware. *)
Definition routed (req : Request) (ps : list (string * string)) : Context :=
  set_Params ps (reset req).

(** The context after the CORS middleware has set its three headers. *)
Definition withCORS (E : Env) (c : Context) : Context :=
  gin.Header "Access-Control-Allow-Headers" "Content-Type, Authorization"
    (gin.Header "Access-Control-Allow-Methods" "GET, POST, PUT, DELETE, OPTIONS"
       (gin.Header "Access-Control-Allow-Origin" (allowedOrigin E) c)).

(** What [handleHTTPRequest] returns for a matched handler with outcome [o]:
    [gin.Recovery] answers a panic, then the header is flushed. *)
Definition served (o : Outcome) : Outcome :=
  let c' :=
    match o with
    | Returned c' => c'
    | Panicked _ c' => gin.AbortWithStatus StatusInternalServerError c'
    end in
  Returned (set_Writer (gin.WriteHeaderNow (c_Writer c')) c').

(** What a rejected parameter leaves behind: one 400 answer that names it,
    and no call out of the process. *)
Definition answered400 (c : Context) (name : string) (o : Outcome) : Prop :=
  ∃ c', o = Returned c'
        ∧ w_status (c_Writer c') = StatusBadRequest
        ∧ w_body (c_Writer c') =
            w_body (c_Writer c) ++ [JSONOf (errorBody ("Invalid " +:+ name +:+ " parameter"))]
        ∧ c_trace c' = c_trace c.

(** ** Notions used by the further properties *)

(** The three headers of the CORS middleware. *)
Definition corsHeaders (E : Env) : http_Header :=
  <["Access-Control-Allow-Headers" := ["Content-Type, Authorization"]]>
    (<["Access-Control-Allow-Methods" := ["GET, POST, PUT, DELETE, OPTIONS"]]>
       (<["Access-Control-Allow-Origin" := [allowedOrigin E]]> ∅)).

(** The router's answer for a method and a path. *)
Definition lookup_route (E : Env) (method path : string)
    : option (HandlerFunc * list (string * string)) :=
  match segments path with
  | Some ss => getValue ss (tree (setupRoutes E (NewProxyServer E)) method)
  | None => None
  end.

(** The first segments under which routes are registered. *)
Definition registered_roots : list string :=
  ["health"; "player"; "bans"; "servers"; "game_time"; "events"; "vtc";
   "version"; "rules"].

Definition is_digit (ch : ascii) : bool :=
  match strconv.digit ch with
  | Some _ => true
  | None => false
  end.

Fixpoint all_digits (s : string) : bool :=
  match s with
  | EmptyString => true
  | String ch r => is_digit ch && all_digits r
  end.

(** One or more decimal digits. *)
Definition numeric (s : string) : bool :=
  match s with
  | EmptyString => false
  | _ => all_digits s
  end.

Fixpoint no_slash (s : string) : bool :=
  match s with
  | EmptyString => true
  | String ch r => negb (Ascii.eqb ch "/") && no_slash r
  end.

(** A text that fills one segment of a path: not empty, no slash. *)
Definition one_segment (s : string) : bool :=
  negb (String.eqb s EmptyString) && no_slash s.



(** An accepted parameter as it goes upstream: its value, rendered by [%d]. *)
Definition canonical (v : string) : string :=
  strconv.Itoa (default 0 (strconv.Atoi v)).

(** The path with the given segments. *)
Definition path_of (segs : list string) : string :=
  foldr (λ sg acc, "/" +:+ sg +:+ acc) EmptyString segs.

(** The segments of a pattern, each parameter replaced by the next value. *)
Fixpoint fill (pattern : list seg) (vals : list string) : list string :=
  match pattern with
  | [] => []
  | Lit s :: pattern' => s :: fill pattern' vals
  | Par _ :: pattern' =>
      match vals with
      | v :: vals' => v :: fill pattern' vals'
      | [] => EmptyString :: fill pattern' []
      end
  end.

(** The last value of a header, if it has one. *)
Definition last_value (vs : list string) : option string := last vs.

(** What an outbound header holds after the values [vs] of the upstream
    response were copied onto it with [c.Header]. *)
Definition relayed (before : option (list string)) (vs : option (list string))
    : option (list string) :=
  match vs with
  | None => before
  | Some vs =>
      match last_value vs with
      | None => before
      | Some v => if String.eqb v EmptyString then None else Some [v]
      end
  end.

(** * Properties *)

(** ** The response writer *)

Lemma WriteHeader_status code w :
  w_written w = false → 0 < code → w_status (gin.WriteHeader code w) = code.
Proof.
  intros Hw Hc. unfold gin.WriteHeader.
  destruct (Z.ltb_spec 0 code); [|lia].
  destruct (Z.eqb_spec (w_status w) code) as [Heq|]; simpl; [done|].
  by rewrite Hw.
Qed.

Lemma WriteHeader_other code w :
  w_header (gin.WriteHeader code w) = w_header w
  ∧ w_body (gin.WriteHeader code w) = w_body w
  ∧ w_written (gin.WriteHeader code w) = w_written w.
Proof.
  unfold gin.WriteHeader.
  destruct (_ && _); [|done]. destruct (w_written w) eqn:Hw; simpl; auto.
Qed.

Lemma writeContentType_other ct w :
  w_status (gin.writeContentType ct w) = w_status w
  ∧ w_body (gin.writeContentType ct w) = w_body w
  ∧ w_written (gin.writeContentType ct w) = w_written w.
Proof. unfold gin.writeContentType. by destruct (Header_Values _ _). Qed.

(** A render leaves the status it was given, whatever the body rule says. *)
Lemma Render_status code ct ch c :
  w_written (c_Writer c) = false → 0 < code →
  w_status (c_Writer (gin.Render code ct ch c)) = code.
Proof.
  intros Hw Hc. unfold gin.Render.
  destruct (gin.bodyAllowedForStatus code); simpl;
    rewrite (proj1 (writeContentType_other _ _)); simpl;
    by apply WriteHeader_status.
Qed.

Lemma Render_trace code ct ch c : c_trace (gin.Render code ct ch c) = c_trace c.
Proof. unfold gin.Render. by destruct (gin.bodyAllowedForStatus code). Qed.

Lemma Render_body code ct ch c :
  w_body (c_Writer (gin.Render code ct ch c)) =
  w_body (c_Writer c) ++ (if gin.bodyAllowedForStatus code then [ch] else []).
Proof.
  unfold gin.Render.
  destruct (gin.bodyAllowedForStatus code); simpl;
    rewrite (proj1 (proj2 (writeContentType_other _ _))); simpl;
    rewrite (proj1 (proj2 (WriteHeader_other _ _))); [done|by rewrite app_nil_r].
Qed.

(** [c.Header] touches the header map only. *)
Lemma Header_frame key value c :
  w_status (c_Writer (gin.Header key value c)) = w_status (c_Writer c)
  ∧ w_body (c_Writer (gin.Header key value c)) = w_body (c_Writer c)
  ∧ w_written (c_Writer (gin.Header key value c)) = w_written (c_Writer c)
  ∧ c_trace (gin.Header key value c) = c_trace c
  ∧ c_Request (gin.Header key value c) = c_Request c
  ∧ c_Params (gin.Header key value c) = c_Params c.
Proof. unfold gin.Header. by destruct (String.eqb value ""). Qed.

Lemma range_pairs_frame {B} (g : Context → B) kvs c :
  (∀ k v c, g (gin.Header k v c) = g c) →
  g (range_pairs gin.Header kvs c) = g c.
Proof.
  intros Hg. unfold range_pairs. revert c.
  induction kvs as [|[k vs] kvs IH]; intros c; simpl; [done|].
  rewrite IH. clear IH. revert c.
  induction vs as [|v vs IH]; intros c; simpl; [done|].
  by rewrite IH, Hg.
Qed.

(** ** The paths through [proxyRequest] *)

Lemma proxyRequest_nil E p c endpoint err :
  NewRequest_err E (Method (c_Request c)) (TruckersMPAPIBase +:+ endpoint) = Some err →
  proxyRequest E p c endpoint =
  Panicked "invalid memory address or nil pointer dereference"
    (emit (EvNewRequest (Method (c_Request c)) (TruckersMPAPIBase +:+ endpoint)) c).
Proof. intros Hn. unfold proxyRequest, NewRequest. by rewrite Hn. Qed.

Lemma proxyRequest_built E p c endpoint :
  NewRequest_err E (Method (c_Request c)) (TruckersMPAPIBase +:+ endpoint) = None →
  proxyRequest E p c endpoint =
  match Do (client p) (upstreamRequest c endpoint) with
  | inr _ =>
      Returned (gin.JSON StatusInternalServerError
        (errorBody "Failed to fetch data from TruckersMP API") (called c endpoint))
  | inl resp =>
      match ReadAll (Body resp) with
      | (_, Some _) =>
          Returned (gin.JSON StatusInternalServerError
            (errorBody "Failed to read response") (called c endpoint))
      | (body, None) =>
          let c' := gin.Status (StatusCode resp)
                      (range_Header gin.Header (Resp_Header resp) (called c endpoint)) in
          match Unmarshal E body with
          | Some jsonResponse => Returned (gin.JSON (StatusCode resp) jsonResponse c')
          | None =>
              Returned (gin.Data (StatusCode resp)
                (Header_Get (Resp_Header resp) "Content-Type") body c')
          end
      end
  end.
Proof. intros Hn. unfold proxyRequest, NewRequest. by rewrite Hn. Qed.

Lemma called_frame c endpoint :
  c_Writer (called c endpoint) = c_Writer c
  ∧ c_trace (called c endpoint) =
      c_trace c ++ [EvNewRequest (Method (c_Request c)) (TruckersMPAPIBase +:+ endpoint);
                    EvDo (upstreamRequest c endpoint)].
Proof. split; [done|]. simpl. by rewrite <- app_assoc. Qed.

Lemma copied_frame rh c :
  w_status (c_Writer (range_Header gin.Header rh c)) = w_status (c_Writer c)
  ∧ w_body (c_Writer (range_Header gin.Header rh c)) = w_body (c_Writer c)
  ∧ w_written (c_Writer (range_Header gin.Header rh c)) = w_written (c_Writer c)
  ∧ c_trace (range_Header gin.Header rh c) = c_trace c.
Proof.
  unfold range_Header. repeat split.
  - apply (range_pairs_frame (λ c, w_status (c_Writer c))). intros. apply Header_frame.
  - apply (range_pairs_frame (λ c, w_body (c_Writer c))). intros. apply Header_frame.
  - apply (range_pairs_frame (λ c, w_written (c_Writer c))). intros. apply Header_frame.
  - apply (range_pairs_frame c_trace). intros. apply Header_frame.
Qed.

Lemma Status_frame code c :
  w_body (c_Writer (gin.Status code c)) = w_body (c_Writer c)
  ∧ w_written (c_Writer (gin.Status code c)) = w_written (c_Writer c)
  ∧ w_header (c_Writer (gin.Status code c)) = w_header (c_Writer c)
  ∧ c_trace (gin.Status code c) = c_trace c.
Proof.
  unfold gin.Status. simpl.
  destruct (WriteHeader_other code (c_Writer c)) as (? & ? & ?). auto.
Qed.




(** ** Failures of the forwarder *)

Lemma JSON_body code obj c :
  gin.bodyAllowedForStatus code = true →
  w_body (c_Writer (gin.JSON code obj c)) = w_body (c_Writer c) ++ [JSONOf obj].
Proof. intros Hb. unfold gin.JSON. by rewrite Render_body, Hb. Qed.

(** C2, as the code has it.  When the upstream call fails, for whatever
    reason, the answer is a 500 with the one message "Failed to fetch data
    from TruckersMP API", and [client.Do] was called once. *)
Theorem transport_failure_answered_500 E p c endpoint err :
  w_written (c_Writer c) = false →
  NewRequest_err E (Method (c_Request c)) (TruckersMPAPIBase +:+ endpoint) = None →
  Do (client p) (upstreamRequest c endpoint) = inr err →
  ∃ c', proxyRequest E p c endpoint = Returned c'
        ∧ w_status (c_Writer c') = StatusInternalServerError
        ∧ w_body (c_Writer c') =
            w_body (c_Writer c) ++ [JSONOf (errorBody "Failed to fetch data from TruckersMP API")]
        ∧ c_trace c' =
            c_trace c ++ [EvNewRequest (Method (c_Request c)) (TruckersMPAPIBase +:+ endpoint);
                          EvDo (upstreamRequest c endpoint)].
Proof.
  intros Hw Hn Hd. rewrite (proxyRequest_built _ _ _ _ Hn), Hd.
  eexists. split; [reflexivity|]. split; [|split].
  - apply Render_status; [|done]. by rewrite (proj1 (called_frame _ _)).
  - rewrite JSON_body by reflexivity. by rewrite (proj1 (called_frame _ _)).
  - unfold gin.JSON. rewrite Render_trace. apply called_frame.
Qed.

Lemma transport_failure_answered_500_witness :
  ∃ c', proxyRequest (replying timeout) (NewProxyServer (replying timeout))
          (reset (get "/servers")) "/servers" = Returned c'
        ∧ w_status (c_Writer c') = 500
        ∧ w_body (c_Writer c') =
            [JSONOf (errorBody "Failed to fetch data from TruckersMP API")]
        ∧ c_trace c' =
            [EvNewRequest "GET" "https://api.truckersmp.com/v2/servers";
             EvDo (upstreamRequest (reset (get "/servers")) "/servers")].
Proof.
  apply (transport_failure_answered_500 (replying timeout) (NewProxyServer (replying timeout))
           (reset (get "/servers")) "/servers"
           (errorString "context deadline exceeded (Client.Timeout exceeded while awaiting headers)"));
    reflexivity.
Defined.

Lemma errorBody_inj m1 m2 : errorBody m1 = errorBody m2 → m1 = m2.
Proof.
  unfold errorBody, H. intros Heq.
  apply (f_equal (λ v, match v with Map m => m !! "message" | _ => None end)) in Heq.
  simpl in Heq. rewrite !lookup_insert_ne in Heq by done.
  rewrite !lookup_insert_eq in Heq. by injection Heq.
Qed.

(** C2 fails as stated.  [http.NewRequest] refuses a URL with a control byte;
    [proxyRequest] then dereferences the nil request on its next line and
    panics, so it answers nothing.  The message the code keeps for that case
    is not the message of a transport failure either. *)
Lemma construction_failure_not_answered :
  NewRequest_err (replying timeout) "GET" (TruckersMPAPIBase +:+ ctlEndpoint) ≠ None
  ∧ (∀ c', proxyRequest (replying timeout) (NewProxyServer (replying timeout))
             (reset (get "/servers")) ctlEndpoint ≠ Returned c')
  ∧ errorBody "Failed to create request"
      ≠ errorBody "Failed to fetch data from TruckersMP API".
Proof.
  split; [done|]. split.
  - intros c'. by vm_compute.
  - intros Heq. by apply errorBody_inj in Heq.
Qed.

(** ** Headers of the upstream request *)

Lemma Add_fold_lookup k0 vs (h : gmap string (list string)) k :
  foldl (λ a v, Header_Add k0 v a) h vs !! k =
  if decide (k = k0) then
    match vs with
    | [] => h !! k
    | _ => Some (Header_Values h k ++ vs)
    end
  else h !! k.
Proof.
  revert h. induction vs as [|v vs IH]; intros h; simpl.
  - by destruct (decide _).
  - rewrite IH. unfold Header_Add, Header_Values.
    destruct (decide (k = k0)) as [->|Hne].
    + rewrite lookup_insert_eq. simpl. destruct vs; [done|].
      by rewrite <- app_assoc.
    + by rewrite lookup_insert_ne.
Qed.

Lemma range_Add_lookup kvs (h : gmap string (list string)) k :
  NoDup kvs.*1 →
  range_pairs Header_Add kvs h !! k =
  match (list_to_map kvs : gmap string (list string)) !! k with
  | Some (v :: vs) => Some (Header_Values h k ++ v :: vs)
  | _ => h !! k
  end.
Proof.
  unfold range_pairs. revert h.
  induction kvs as [|[k0 vs0] kvs IH]; intros h Hnd; simpl.
  - by rewrite lookup_empty.
  - apply NoDup_cons in Hnd as [Hnotin Hnd]. simpl in Hnotin.
    rewrite IH by done. unfold Header_Values at 1.
    rewrite !Add_fold_lookup.
    destruct (decide (k = k0)) as [->|Hne].
    + rewrite lookup_insert_eq.
      rewrite (not_elem_of_list_to_map_1 _ _ Hnotin).
      by destruct vs0.
    + by rewrite lookup_insert_ne.
Qed.

Lemma range_Add_enumeration kvs (m h : gmap string (list string)) :
  kvs ≡ₚ map_to_list m →
  range_pairs Header_Add kvs h = range_Header Header_Add m h.
Proof.
  intros Hp. apply map_eq. intros k. unfold range_Header.
  assert (NoDup kvs.*1) as Hnd.
  { rewrite Hp. apply NoDup_fst_map_to_list. }
  rewrite !range_Add_lookup by (done || apply NoDup_fst_map_to_list).
  by rewrite (list_to_map_proper _ _ Hnd Hp).
Qed.

Lemma range_Add_Values (m h : gmap string (list string)) k :
  Header_Values (range_Header Header_Add m h) k = Header_Values h k ++ Header_Values m k.
Proof.
  unfold range_Header, Header_Values at 1.
  rewrite range_Add_lookup by apply NoDup_fst_map_to_list.
  rewrite list_to_map_to_list. unfold Header_Values.
  destruct (m !! k) as [[|v vs]|]; simpl; by rewrite ?app_nil_r.
Qed.

Lemma proxyRequest_trace E p c endpoint :
  NewRequest_err E (Method (c_Request c)) (TruckersMPAPIBase +:+ endpoint) = None →
  c_trace (final (proxyRequest E p c endpoint)) =
  c_trace c ++ [EvNewRequest (Method (c_Request c)) (TruckersMPAPIBase +:+ endpoint);
                EvDo (upstreamRequest c endpoint)].
Proof.
  intros Hn. rewrite (proxyRequest_built _ _ _ _ Hn).
  rewrite <- (proj2 (called_frame c endpoint)).
  destruct (Do _ _) as [resp|err]; [|by unfold gin.JSON; cbn [final]; rewrite Render_trace].
  destruct (ReadAll _) as [body [err|]]; [by unfold gin.JSON; cbn [final]; rewrite Render_trace|].
  cbv zeta.
  destruct (Unmarshal E body); unfold gin.JSON, gin.Data; cbn [final]; rewrite Render_trace;
    rewrite (proj2 (proj2 (proj2 (Status_frame _ _))));
    apply copied_frame.
Qed.

(** C5. The request handed to [client.Do] carries, under every name, the
    values of the two defaults followed by the values of the inbound request:
    names accumulate, nothing is overwritten, and the order in which Go
    enumerates the inbound map does not matter. *)
Theorem upstream_request_headers E p c endpoint :
  NewRequest_err E (Method (c_Request c)) (TruckersMPAPIBase +:+ endpoint) = None →
  c_trace (final (proxyRequest E p c endpoint)) =
    c_trace c ++ [EvNewRequest (Method (c_Request c)) (TruckersMPAPIBase +:+ endpoint);
                  EvDo (upstreamRequest c endpoint)]
  ∧ (∀ key, Header_Values (Header (upstreamRequest c endpoint)) key =
            Header_Values defaultHeaders key ++ Header_Values (Header (c_Request c)) key)
  ∧ (∀ kvs, kvs ≡ₚ map_to_list (Header (c_Request c)) →
            range_pairs Header_Add kvs defaultHeaders = Header (upstreamRequest c endpoint))
  ∧ (∀ key, Header_Values defaultHeaders key =
            if decide (key = "Accept") then ["application/json"]
            else if decide (key = "User-Agent") then ["PostmanRuntime/7.36.1"]
            else []).
Proof.
  intros Hn. split; [by apply proxyRequest_trace|]. split; [|split].
  - intros key. apply range_Add_Values.
  - intros kvs Hp. by apply range_Add_enumeration.
  - intros key. unfold defaultHeaders, Header_Set, Header_Values.
    destruct (decide (key = "Accept")) as [->|]; [by rewrite lookup_insert_eq|].
    rewrite lookup_insert_ne by done.
    destruct (decide (key = "User-Agent")) as [->|]; [by rewrite lookup_insert_eq|].
    by rewrite lookup_insert_ne.
Qed.

Lemma upstream_request_headers_witness :
  Header_Values
    (Header (upstreamRequest (reset (get "/servers")) "/servers")) "Accept"
  = ["application/json"; "text/html"].
Proof.
  exact (proj1 (proj2 (upstream_request_headers
           (replying timeout) (NewProxyServer (replying timeout))
           (reset (get "/servers")) "/servers" eq_refl)) "Accept").
Defined.

(** ** Relaying a body that is not JSON *)

Lemma Header_lookup k0 v c k :
  w_header (c_Writer (gin.Header k0 v c)) !! k =
  if decide (k = k0) then (if String.eqb v "" then None else Some [v])
  else w_header (c_Writer c) !! k.
Proof.
  unfold gin.Header, Header_Del, Header_Set.
  destruct (String.eqb v ""); simpl; destruct (decide (k = k0)) as [->|];
    by rewrite ?lookup_delete_eq, ?lookup_delete_ne, ?lookup_insert_eq, ?lookup_insert_ne.
Qed.

Lemma Header_fold_lookup k0 vs c k :
  w_header (c_Writer (foldl (λ a v, gin.Header k0 v a) c vs)) !! k =
  if decide (k = k0) then settle (w_header (c_Writer c) !! k) vs
  else w_header (c_Writer c) !! k.
Proof.
  unfold settle. revert c. induction vs as [|v vs IH]; intros c; simpl.
  - by destruct (decide _).
  - rewrite IH, Header_lookup. by destruct (decide (k = k0)).
Qed.

Lemma copied_lookup kvs c k :
  NoDup kvs.*1 →
  w_header (c_Writer (range_pairs gin.Header kvs c)) !! k =
  match (list_to_map kvs : gmap string (list string)) !! k with
  | Some vs => settle (w_header (c_Writer c) !! k) vs
  | None => w_header (c_Writer c) !! k
  end.
Proof.
  unfold range_pairs. revert c.
  induction kvs as [|[k0 vs0] kvs IH]; intros c Hnd; simpl.
  - by rewrite lookup_empty.
  - apply NoDup_cons in Hnd as [Hnotin Hnd]. simpl in Hnotin.
    rewrite IH by done. rewrite Header_fold_lookup.
    destruct (decide (k = k0)) as [->|Hne].
    + rewrite lookup_insert_eq. by rewrite (not_elem_of_list_to_map_1 _ _ Hnotin).
    + by rewrite lookup_insert_ne.
Qed.

Lemma Render_header code ct ch c :
  w_header (c_Writer (gin.Render code ct ch c)) =
  match Header_Values (w_header (c_Writer c)) "Content-Type" with
  | [] => <["Content-Type" := [ct]]> (w_header (c_Writer c))
  | _ => w_header (c_Writer c)
  end.
Proof.
  unfold gin.Render.
  assert (w_header (c_Writer (gin.Status code c)) = w_header (c_Writer c)) as Hh
    by apply Status_frame.
  destruct (gin.bodyAllowedForStatus code);
    cbn [c_Writer set_Writer gin.Write gin.WriteHeaderNow w_header];
    unfold gin.writeContentType; rewrite Hh;
    by destruct (Header_Values _ _).
Qed.

Lemma append_empty_r (s : string) : s +:+ "" = s.
Proof.
  induction s as [|a s IH]; [done|].
  change (String a (s +:+ "") = String a s). by rewrite IH.
Qed.



(** ** Validation and the route handlers *)

Lemma validateID_rejected c name :
  rejected (gin.Param c name) = true →
  validateID c name =
  (gin.JSON StatusBadRequest (errorBody ("Invalid " +:+ name +:+ " parameter")) c, (0, false)).
Proof.
  unfold rejected, validateID. intros Hr.
  destruct (strconv.Atoi (gin.Param c name)) as [id|]; [|reflexivity].
  by rewrite Hr.
Qed.

Lemma validateID_accepted c name :
  rejected (gin.Param c name) = false →
  ∃ id, strconv.Atoi (gin.Param c name) = Some id ∧ 0 ≤ id
        ∧ validateID c name = (c, (id, true)).
Proof.
  unfold rejected, validateID. intros Hr.
  destruct (strconv.Atoi (gin.Param c name)) as [id|]; [|done].
  exists id. rewrite Hr. split; [done|]. split; [lia|done].
Qed.

Lemma JSON_400 c name :
  w_written (c_Writer c) = false →
  answered400 c name
    (Returned (gin.JSON StatusBadRequest (errorBody ("Invalid " +:+ name +:+ " parameter")) c)).
Proof.
  intros Hw. eexists. split; [reflexivity|]. split; [|split].
  - by apply Render_status.
  - by rewrite JSON_body.
  - apply Render_trace.
Qed.

Lemma forwardID_rejected E p format c :
  w_written (c_Writer c) = false →
  rejected (gin.Param c "id") = true →
  answered400 c "id" (forwardID E p format c).
Proof.
  intros Hw Hr. unfold forwardID. rewrite (validateID_rejected _ _ Hr).
  by apply JSON_400.
Qed.

Lemma forwardID2_rejected_first E p name format c :
  w_written (c_Writer c) = false →
  rejected (gin.Param c "id") = true →
  answered400 c "id" (forwardID2 E p name format c).
Proof.
  intros Hw Hr. unfold forwardID2. rewrite (validateID_rejected _ _ Hr).
  by apply JSON_400.
Qed.

Lemma forwardID2_rejected_second E p name format c :
  w_written (c_Writer c) = false →
  rejected (gin.Param c "id") = false →
  rejected (gin.Param c name) = true →
  answered400 c name (forwardID2 E p name format c).
Proof.
  intros Hw Hr1 Hr2. unfold forwardID2.
  destruct (validateID_accepted _ _ Hr1) as (id & _ & _ & ->).
  rewrite (validateID_rejected _ _ Hr2). by apply JSON_400.
Qed.

Lemma forwardID_accepted E p format c :
  rejected (gin.Param c "id") = false →
  forwardID E p format c =
  proxyRequest E p c
    (fmt.Sprintf format [fmt.I (default 0 (strconv.Atoi (gin.Param c "id")))]).
Proof.
  intros Hr. unfold forwardID.
  destruct (validateID_accepted _ _ Hr) as (id & -> & _ & ->). reflexivity.
Qed.

Lemma forwardID2_accepted E p name format c :
  rejected (gin.Param c "id") = false →
  rejected (gin.Param c name) = false →
  forwardID2 E p name format c =
  proxyRequest E p c
    (fmt.Sprintf format [fmt.I (default 0 (strconv.Atoi (gin.Param c "id")));
                         fmt.I (default 0 (strconv.Atoi (gin.Param c name)))]).
Proof.
  intros Hr1 Hr2. unfold forwardID2.
  destruct (validateID_accepted _ _ Hr1) as (id & -> & _ & ->).
  destruct (validateID_accepted _ _ Hr2) as (id2 & -> & _ & ->). reflexivity.
Qed.

(** The route table, entry by entry. *)
Lemma routes_table E p :
  routes (setupRoutes E p) =
  [("GET", "/health", health E);
   ("GET", "/player/:id", forwardID E p "/player/%d");
   ("GET", "/bans/:id", forwardID E p "/bans/%d");
   ("GET", "/servers", forward E p "/servers");
   ("GET", "/game_time", forward E p "/game_time");
   ("GET", "/events", forward E p "/events");
   ("GET", "/events/:id", forwardID E p "/events/%d");
   ("GET", "/events/user/:id", forwardID E p "/events/user/%d");
   ("GET", "/vtc", forward E p "/vtc");
   ("GET", "/vtc/:id", forwardID E p "/vtc/%d");
   ("GET", "/vtc/:id/news", forwardID E p "/vtc/%d/news");
   ("GET", "/vtc/:id/news/:news_id", forwardID2 E p "news_id" "/vtc/%d/news/%d");
   ("GET", "/vtc/:id/roles", forwardID E p "/vtc/%d/roles");
   ("GET", "/vtc/:id/role/:role_id", forwardID2 E p "role_id" "/vtc/%d/role/%d");
   ("GET", "/vtc/:id/members", forwardID E p "/vtc/%d/members");
   ("GET", "/vtc/:id/member/:member_id", forwardID2 E p "member_id" "/vtc/%d/member/%d");
   ("GET", "/vtc/:id/events", forwardID E p "/vtc/%d/events");
   ("GET", "/vtc/:id/events/:event_id", forwardID2 E p "event_id" "/vtc/%d/events/%d");
   ("GET", "/vtc/:id/events/attending", forwardID E p "/vtc/%d/events/attending");
   ("GET", "/vtc/:id/partners", forwardID E p "/vtc/%d/partners");
   ("GET", "/version", forward E p "/version");
   ("GET", "/rules", forward E p "/rules")].
Proof. reflexivity. Qed.

Lemma middleware_table E p :
  Handlers (setupRoutes E p) = [gin.Logger; gin.Recovery; cors E]
  ∧ noRoute (setupRoutes E p) = notFound.
Proof. split; reflexivity. Qed.

Ltac each_route H :=
  rewrite routes_table in H;
  repeat (apply elem_of_cons in H as [H|H]; [injection H as -> -> ->|]);
  [..|by apply elem_of_nil in H].

Ltac eval_params H :=
  match type of H with
  | context [pattern_params ?pat] =>
      let ps := eval vm_compute in (pattern_params pat) in
      change (pattern_params pat) with ps in H
  end.

(** C4. On every route with numeric parameters, a context in which one of
    them does not parse as a non-negative integer gets a 400 whose message
    names the first such parameter, and nothing is sent upstream. *)
Theorem invalid_parameter_answered_400 E p method pattern h c name :
  (method, pattern, h) ∈ routes (setupRoutes E p) →
  w_written (c_Writer c) = false →
  first_rejected c (pattern_params pattern) = Some name →
  ∃ c', h c = Returned c'
        ∧ w_status (c_Writer c') = StatusBadRequest
        ∧ w_body (c_Writer c') =
            w_body (c_Writer c) ++ [JSONOf (errorBody ("Invalid " +:+ name +:+ " parameter"))]
        ∧ c_trace c' = c_trace c.
Proof.
  intros Hin Hw Hfirst. change (answered400 c name (h c)).
  each_route Hin; eval_params Hfirst; cbn [first_rejected] in Hfirst;
    try discriminate Hfirst;
    destruct (rejected (gin.Param c "id")) eqn:Hid;
    try (injection Hfirst as <-; first [by apply forwardID_rejected
                                       | by apply forwardID2_rejected_first]);
    try discriminate Hfirst;
    match type of Hfirst with
    | (if rejected (gin.Param c ?n) then _ else _) = _ =>
        destruct (rejected (gin.Param c n)) eqn:Hsub; [|discriminate Hfirst];
        injection Hfirst as <-; by apply forwardID2_rejected_second
    end.
Qed.

Lemma route_player E p :
  ("GET", "/player/:id", forwardID E p "/player/%d") ∈ routes (setupRoutes E p).
Proof. rewrite routes_table. apply list_elem_of_lookup. by exists 1%nat. Qed.

Lemma route_vtc_news_item E p :
  ("GET", "/vtc/:id/news/:news_id", forwardID2 E p "news_id" "/vtc/%d/news/%d")
  ∈ routes (setupRoutes E p).
Proof. rewrite routes_table. apply list_elem_of_lookup. by exists 11%nat. Qed.

Lemma invalid_parameter_answered_400_witness :
  ∃ c', forwardID (replying timeout) (NewProxyServer (replying timeout)) "/player/%d"
          (routed (get "/player/abc") [("id", "abc")]) = Returned c'
        ∧ w_status (c_Writer c') = 400
        ∧ w_body (c_Writer c') = [JSONOf (errorBody "Invalid id parameter")]
        ∧ c_trace c' = [].
Proof.
  destruct (invalid_parameter_answered_400
              (replying timeout) (NewProxyServer (replying timeout))
              "GET" "/player/:id"
              (forwardID (replying timeout) (NewProxyServer (replying timeout)) "/player/%d")
              (routed (get "/player/abc") [("id", "abc")]) "id")
    as (c' & Hret & Hst & Hbody & Htr).
  - apply route_player.
  - reflexivity.
  - reflexivity.
  - exists c'. split; [exact Hret|]. split; [exact Hst|]. split; [exact Hbody|exact Htr].
Defined.

Lemma proxyRequest_first_event E p c endpoint :
  ∃ rest,
    c_trace (final (proxyRequest E p c endpoint)) =
      c_trace c ++ EvNewRequest (Method (c_Request c)) (TruckersMPAPIBase +:+ endpoint) :: rest
    ∧ ∀ req, EvDo req ∈ rest → URL req = TruckersMPAPIBase +:+ endpoint.
Proof.
  destruct (NewRequest_err E (Method (c_Request c)) (TruckersMPAPIBase +:+ endpoint))
    as [err|] eqn:Hn.
  - exists []. rewrite (proxyRequest_nil _ _ _ _ _ Hn). split; [done|].
    intros req Hin. by apply elem_of_nil in Hin.
  - exists [EvDo (upstreamRequest c endpoint)]. split; [by apply proxyRequest_trace|].
    intros req Hin. apply list_elem_of_singleton in Hin. by injection Hin as ->.
Qed.

(** C6. A route with two numeric parameters forwards only when both pass
    [validateID]; when either fails there is one 400 answer, naming a
    parameter of the route, and [proxyRequest] is not entered. *)
Theorem two_parameter_route_validated E p method pattern h c n1 n2 :
  (method, pattern, h) ∈ routes (setupRoutes E p) →
  pattern_params pattern = [n1; n2] →
  w_written (c_Writer c) = false →
  (rejected (gin.Param c n1) || rejected (gin.Param c n2) = true →
     ∃ name c', (name = n1 ∨ name = n2)
       ∧ h c = Returned c'
       ∧ w_status (c_Writer c') = StatusBadRequest
       ∧ w_body (c_Writer c') =
           w_body (c_Writer c) ++ [JSONOf (errorBody ("Invalid " +:+ name +:+ " parameter"))]
       ∧ c_trace c' = c_trace c)
  ∧ (rejected (gin.Param c n1) || rejected (gin.Param c n2) = false →
     h c = proxyRequest E p c (instantiate c pattern)).
Proof.
  intros Hin Hps Hw.
  each_route Hin; eval_params Hps; try discriminate Hps;
    injection Hps as <- <-;
    (split; intros Hrej;
     [ destruct (rejected (gin.Param c "id")) eqn:Hid;
       [ exists "id";
         match goal with
         | |- context [forwardID2 ?E0 ?p0 ?n ?f c] =>
             destruct (forwardID2_rejected_first E0 p0 n f c Hw Hid) as (c' & Hc')
         end;
         exists c'; split; [by left|exact Hc']
       | simpl in Hrej;
         match goal with
         | |- context [forwardID2 ?E0 ?p0 ?n ?f c] =>
             exists n;
             destruct (forwardID2_rejected_second E0 p0 n f c Hw Hid Hrej) as (c' & Hc')
         end;
         exists c'; split; [by right|exact Hc'] ]
     | apply orb_false_iff in Hrej as [Hid Hsub];
       rewrite (forwardID2_accepted _ _ _ _ _ Hid Hsub); reflexivity ]).
Qed.

Lemma two_parameter_route_validated_witness :
  (∃ name c', (name = "id" ∨ name = "news_id")
     ∧ forwardID2 (replying timeout) (NewProxyServer (replying timeout))
         "news_id" "/vtc/%d/news/%d"
         (routed (get "/vtc/5/news/x") [("id", "5"); ("news_id", "x")]) = Returned c'
     ∧ w_status (c_Writer c') = 400
     ∧ w_body (c_Writer c') = [JSONOf (errorBody ("Invalid " +:+ name +:+ " parameter"))]
     ∧ c_trace c' = []).
Proof.
  destruct (proj1 (two_parameter_route_validated
              (replying timeout) (NewProxyServer (replying timeout))
              "GET" "/vtc/:id/news/:news_id"
              (forwardID2 (replying timeout) (NewProxyServer (replying timeout))
                 "news_id" "/vtc/%d/news/%d")
              (routed (get "/vtc/5/news/x") [("id", "5"); ("news_id", "x")])
              "id" "news_id"
              (route_vtc_news_item _ _) eq_refl eq_refl) eq_refl)
    as (name & c' & Hname & Hret & Hst & Hbody & Htr).
  exists name, c'. split; [exact Hname|]. split; [exact Hret|].
  split; [exact Hst|]. split; [exact Hbody|exact Htr].
Defined.

(** C8. With parameters that pass validation, the handler of every proxied
    route enters [proxyRequest] with the route's own pattern, each parameter
    replaced by the decimal rendering of its value; the URL given to
    [http.NewRequest], and of any request sent, is [TruckersMPAPIBase]
    followed by that path. *)
Theorem upstream_path_matches_route E p method pattern h c :
  (method, pattern, h) ∈ routes (setupRoutes E p) →
  pattern ≠ "/health" →
  first_rejected c (pattern_params pattern) = None →
  h c = proxyRequest E p c (instantiate c pattern)
  ∧ ∃ rest,
      c_trace (final (h c)) =
        c_trace c ++ EvNewRequest (Method (c_Request c))
                       (TruckersMPAPIBase +:+ instantiate c pattern) :: rest
      ∧ ∀ req, EvDo req ∈ rest → URL req = TruckersMPAPIBase +:+ instantiate c pattern.
Proof.
  intros Hin Hnh Hfirst.
  assert (h c = proxyRequest E p c (instantiate c pattern)) as ->;
    [|split; [done|apply proxyRequest_first_event]].
  each_route Hin; try done; eval_params Hfirst; cbn [first_rejected] in Hfirst;
    try reflexivity;
    destruct (rejected (gin.Param c "id")) eqn:Hid; try discriminate Hfirst;
    try (rewrite (forwardID_accepted _ _ _ _ Hid); reflexivity);
    match type of Hfirst with
    | (if rejected (gin.Param c ?n) then _ else _) = _ =>
        destruct (rejected (gin.Param c n)) eqn:Hsub; [discriminate Hfirst|];
        rewrite (forwardID2_accepted _ _ _ _ _ Hid Hsub); reflexivity
    end.
Qed.

Lemma upstream_path_matches_route_witness :
  forwardID2 (replying timeout) (NewProxyServer (replying timeout))
    "news_id" "/vtc/%d/news/%d"
    (routed (get "/vtc/5/news/12") [("id", "5"); ("news_id", "12")])
  = proxyRequest (replying timeout) (NewProxyServer (replying timeout))
      (routed (get "/vtc/5/news/12") [("id", "5"); ("news_id", "12")])
      "/vtc/5/news/12".
Proof.
  exact (proj1 (upstream_path_matches_route
           (replying timeout) (NewProxyServer (replying timeout))
           "GET" "/vtc/:id/news/:news_id"
           (forwardID2 (replying timeout) (NewProxyServer (replying timeout))
              "news_id" "/vtc/%d/news/%d")
           (routed (get "/vtc/5/news/12") [("id", "5"); ("news_id", "12")])
           (route_vtc_news_item _ _) ltac:(discriminate) eq_refl)).
Defined.

(** ** Decimal parsing and rendering *)

Ltac eval_digit :=
  match goal with
  | |- context [strconv.digit ?ch] =>
      let v := eval vm_compute in (strconv.digit ch) in
      change (strconv.digit ch) with v
  end.

Lemma of_uint_acc_value d a :
  Z.pos (Pos.of_uint_acc d a) =
  Z.pos a * 10 ^ Z.of_nat (Decimal.nb_digits d) + Z.of_N (Pos.of_uint d).
Proof.
  revert a.
  induction d as [|d IH|d IH|d IH|d IH|d IH|d IH|d IH|d IH|d IH|d IH]; intros a;
    cbn [Pos.of_uint Pos.of_uint_acc Decimal.nb_digits];
    [simpl; lia|..];
    rewrite Nat2Z.inj_succ, Z.pow_succ_r by lia;
    rewrite ?N2Z.inj_pos, !IH; lia.
Qed.

Lemma digits_string_of_uint d acc :
  strconv.digits acc (NilEmpty.string_of_uint d) =
  Some (acc * 10 ^ Z.of_nat (Decimal.nb_digits d) + Z.of_N (Pos.of_uint d)).
Proof.
  revert acc.
  induction d as [|d IH|d IH|d IH|d IH|d IH|d IH|d IH|d IH|d IH|d IH]; intros acc;
    cbn [NilEmpty.string_of_uint strconv.digits Pos.of_uint Decimal.nb_digits];
    [f_equal; simpl; lia|..];
    eval_digit; cbv iota beta; rewrite IH; f_equal;
    rewrite Nat2Z.inj_succ, Z.pow_succ_r by lia;
    rewrite ?N2Z.inj_pos, ?of_uint_acc_value; lia.
Qed.

Lemma digits_to_uint p :
  strconv.digits 0 (NilEmpty.string_of_uint (Pos.to_uint p)) = Some (Z.pos p).
Proof.
  rewrite digits_string_of_uint. f_equal.
  rewrite DecimalPos.Unsigned.of_to. simpl. lia.
Qed.

(** The rendering of a non-negative [int] parses back to it. *)
Lemma Atoi_Itoa n :
  0 ≤ n ≤ strconv.maxInt → strconv.Atoi (strconv.Itoa n) = Some n.
Proof.
  intros [Hlo Hhi]. destruct n as [|p|p]; [reflexivity| |lia].
  unfold strconv.Itoa. cbn [Z.to_int NilZero.string_of_int].
  pose proof (digits_to_uint p) as Hd.
  pose proof (DecimalPos.Unsigned.of_to p) as Hof.
  unfold NilZero.string_of_uint.
  assert (strconv.minInt ≤ Z.pos p) as Hmin by (unfold strconv.minInt, strconv.intSize; lia).
  destruct (Pos.to_uint p) as [|d|d|d|d|d|d|d|d|d|d]; [discriminate Hof|..];
    cbn [NilEmpty.string_of_uint] in *; unfold strconv.Atoi; cbv iota beta;
    rewrite Hd; cbv iota beta;
    destruct (Z.leb_spec strconv.minInt (Z.pos p)); try lia;
    destruct (Z.leb_spec (Z.pos p) strconv.maxInt); try lia; reflexivity.
Qed.

Lemma Atoi_range s n :
  strconv.Atoi s = Some n → strconv.minInt ≤ n ≤ strconv.maxInt.
Proof.
  unfold strconv.Atoi.
  destruct (match s with
            | String "-" t => (true, t)
            | String "+" t => (false, t)
            | _ => (false, s)
            end) as [neg s1].
  destruct s1; [done|].
  destruct (strconv.digits 0 _) as [m|]; [|done].
  destruct (Z.leb_spec strconv.minInt (if neg then - m else m)); [|done].
  destruct (Z.leb_spec (if neg then - m else m) strconv.maxInt); [|done].
  intros [= <-]. lia.
Qed.

(** C9. A parameter that [strconv.Atoi] accepts with a non-negative value
    passes validation, whatever its spelling, and the upstream path carries
    the decimal rendering of the value, which itself parses back to it. *)
Theorem accepted_parameter_rendered_canonically E p c s n :
  gin.Param c "id" = s →
  strconv.Atoi s = Some n →
  0 ≤ n →
  validateID c "id" = (c, (n, true))
  ∧ forwardID E p "/player/%d" c = proxyRequest E p c ("/player/" +:+ strconv.Itoa n)
  ∧ strconv.Atoi (strconv.Itoa n) = Some n.
Proof.
  intros Hs Ha Hn.
  assert (validateID c "id" = (c, (n, true))) as Hv.
  { unfold validateID. rewrite Hs, Ha. by destruct (Z.ltb_spec n 0); [lia|]. }
  split; [exact Hv|]. split.
  - unfold forwardID. rewrite Hv.
    change (fmt.Sprintf "/player/%d" [fmt.I n]) with ("/player/" +:+ (strconv.Itoa n +:+ "")).
    by rewrite append_empty_r.
  - apply Atoi_Itoa. split; [done|]. by apply (Atoi_range s).
Qed.

Lemma accepted_parameter_rendered_canonically_witness :
  (forwardID (replying timeout) (NewProxyServer (replying timeout)) "/player/%d"
     (routed (get "/player/007") [("id", "007")])
   = proxyRequest (replying timeout) (NewProxyServer (replying timeout))
       (routed (get "/player/007") [("id", "007")]) "/player/7")
  ∧ (forwardID (replying timeout) (NewProxyServer (replying timeout)) "/player/%d"
       (routed (get "/player/+7") [("id", "+7")])
     = proxyRequest (replying timeout) (NewProxyServer (replying timeout))
         (routed (get "/player/+7") [("id", "+7")]) "/player/7").
Proof.
  split.
  - exact (proj1 (proj2 (accepted_parameter_rendered_canonically
             (replying timeout) (NewProxyServer (replying timeout))
             (routed (get "/player/007") [("id", "007")]) "007" 7
             eq_refl eq_refl ltac:(lia)))).
  - exact (proj1 (proj2 (accepted_parameter_rendered_canonically
             (replying timeout) (NewProxyServer (replying timeout))
             (routed (get "/player/+7") [("id", "+7")]) "+7" 7
             eq_refl eq_refl ltac:(lia)))).
Defined.

(** ** The engine *)

Lemma tree_no_method r m :
  Forall (λ e : string * string * HandlerFunc, e.1.1 ≠ m) (routes r) → tree r m = [].
Proof.
  unfold tree. induction (routes r) as [|[[m' pat] h] l IH]; intros HF; [done|].
  apply Forall_cons in HF as [Hne HF]. simpl in *.
  rewrite (proj2 (String.eqb_neq m' m) Hne). auto.
Qed.

Lemma tree_other_methods E p m : m ≠ "GET" → tree (setupRoutes E p) m = [].
Proof.
  intros Hm. apply tree_no_method. rewrite routes_table.
  repeat (apply Forall_cons; split; [simpl; congruence|]). apply Forall_nil_2.
Qed.

Lemma chain_setupRoutes E p h :
  chain (setupRoutes E p) h = gin.Recovery (cors E h).
Proof. unfold chain. by rewrite (proj1 (middleware_table E p)). Qed.

Lemma withCORS_frame E c :
  w_status (c_Writer (withCORS E c)) = w_status (c_Writer c)
  ∧ w_body (c_Writer (withCORS E c)) = w_body (c_Writer c)
  ∧ w_written (c_Writer (withCORS E c)) = w_written (c_Writer c)
  ∧ c_trace (withCORS E c) = c_trace c
  ∧ c_Request (withCORS E c) = c_Request c
  ∧ c_Params (withCORS E c) = c_Params c.
Proof.
  unfold withCORS.
  repeat match goal with
         | |- context [gin.Header ?k ?v ?c0] =>
             lazymatch goal with
             | _ : w_status (c_Writer (gin.Header k v c0)) = _ ∧ _ |- _ => fail
             | _ => pose proof (Header_frame k v c0)
             end
         end.
  intuition congruence.
Qed.

Lemma cors_next E next c :
  Method (c_Request c) ≠ "OPTIONS" → cors E next c = next (withCORS E c).
Proof.
  intros Hm. unfold cors. fold (withCORS E c).
  rewrite (proj1 (proj2 (proj2 (proj2 (proj2 (withCORS_frame E c)))))).
  by rewrite (proj2 (String.eqb_neq _ _) Hm).
Qed.

Lemma Render_written code ct ch c :
  w_written (c_Writer (gin.Render code ct ch c)) = true.
Proof. unfold gin.Render. by destruct (gin.bodyAllowedForStatus code). Qed.

(** C10. A request whose method is neither GET nor OPTIONS finds no tree in
    the router, whatever its path; the catch-all handler answers 404
    "Endpoint not found" and nothing is sent upstream. *)
Theorem other_methods_answered_404 E req :
  Method req ≠ "GET" →
  Method req ≠ "OPTIONS" →
  ∃ c', serve E req = Returned c'
        ∧ w_status (c_Writer c') = StatusNotFound
        ∧ w_body (c_Writer c') = [JSONOf (errorBody "Endpoint not found")]
        ∧ c_trace c' = [].
Proof.
  intros Hget Hopt. unfold serve, ServeHTTP, handleHTTPRequest.
  change (Method (c_Request (reset req))) with (Method req).
  rewrite (tree_other_methods _ _ _ Hget), (proj2 (middleware_table _ _)), chain_setupRoutes.
  unfold serveError, gin.Recovery. rewrite cors_next by done.
  unfold notFound. fold (errorBody "Endpoint not found").
  unfold gin.JSON at 1. rewrite Render_written.
  eexists. split; [reflexivity|].
  set (c0 := withCORS E (set_status StatusNotFound (reset req))).
  assert (w_written (c_Writer c0) = false) as Hw
    by (unfold c0; by rewrite (proj1 (proj2 (proj2 (withCORS_frame _ _))))).
  split; [|split].
  - by apply Render_status.
  - rewrite JSON_body by done. unfold c0.
    by rewrite (proj1 (proj2 (withCORS_frame _ _))).
  - unfold gin.JSON. rewrite Render_trace. unfold c0.
    by rewrite (proj1 (proj2 (proj2 (proj2 (withCORS_frame _ _))))).
Qed.

Lemma other_methods_answered_404_witness :
  ∃ c', serve (replying timeout)
          {| Method := "POST"; URL := "/servers"; Header := ∅ |} = Returned c'
        ∧ w_status (c_Writer c') = 404
        ∧ w_body (c_Writer c') = [JSONOf (errorBody "Endpoint not found")]
        ∧ c_trace c' = [].
Proof.
  apply (other_methods_answered_404 (replying timeout)
           {| Method := "POST"; URL := "/servers"; Header := ∅ |});
    discriminate.
Defined.

(** The handlers of the route table run on pristine contexts. *)
Lemma handler_context_pristine E req ps : pristine (withCORS E (routed req ps)).
Proof.
  destruct (withCORS_frame E (routed req ps)) as (_ & Hb & Hw & _).
  split; [by rewrite Hw|]. split; [by rewrite Hb|].
  unfold withCORS. rewrite !Header_lookup.
  repeat (destruct (decide _) as [Heq|_]; [discriminate Heq|]). reflexivity.
Qed.

(** A GET request whose path the router matches runs the matched handler
    behind the CORS headers and under [gin.Recovery]. *)
Lemma serve_GET E req ss h ps :
  Method req = "GET" →
  segments (URL req) = Some ss →
  getValue ss (tree (setupRoutes E (NewProxyServer E)) "GET") = Some (h, ps) →
  serve E req = served (h (withCORS E (routed req ps))).
Proof.
  intros Hm Hss Hget. unfold serve, ServeHTTP, handleHTTPRequest.
  change (Method (c_Request (reset req))) with (Method req).
  change (URL (c_Request (reset req))) with (URL req).
  rewrite Hm, Hss. cbn [from_option].
  destruct (tree _ "GET") as [|n ns] eqn:Htree.
  { by destruct ss. }
  rewrite Hget, chain_setupRoutes. unfold gin.Recovery, served.
  rewrite cors_next by (cbn; rewrite Hm; discriminate).
  fold (routed req ps). by destruct (h _).
Qed.

Lemma route_found_vtc_news E :
  getValue ["vtc"; "5"; "news"; "12"] (tree (setupRoutes E (NewProxyServer E)) "GET")
  = Some (forwardID2 E (NewProxyServer E) "news_id" "/vtc/%d/news/%d",
          [("id", "5"); ("news_id", "12")]).
Proof. unfold tree. rewrite routes_table. reflexivity. Qed.

Lemma route_found_player_007 E :
  getValue ["player"; "007"] (tree (setupRoutes E (NewProxyServer E)) "GET")
  = Some (forwardID E (NewProxyServer E) "/player/%d", [("id", "007")]).
Proof. unfold tree. rewrite routes_table. reflexivity. Qed.

Lemma Param_withCORS E c name : gin.Param (withCORS E c) name = gin.Param c name.
Proof.
  unfold gin.Param.
  by rewrite (proj2 (proj2 (proj2 (proj2 (proj2 (withCORS_frame E c)))))).
Qed.

(** Inbound GET /vtc/5/news/12 enters the forwarder with /vtc/5/news/12. *)
Lemma serve_vtc_news E :
  serve E (get "/vtc/5/news/12") =
  served (proxyRequest E (NewProxyServer E)
            (withCORS E (routed (get "/vtc/5/news/12") [("id", "5"); ("news_id", "12")]))
            "/vtc/5/news/12").
Proof.
  rewrite (serve_GET E (get "/vtc/5/news/12") _ _ _ eq_refl eq_refl (route_found_vtc_news E)).
  rewrite forwardID2_accepted by (rewrite Param_withCORS; reflexivity).
  rewrite !Param_withCORS. reflexivity.
Qed.

(** Inbound GET /player/007 enters the forwarder with /player/7. *)
Lemma serve_player_007 E :
  serve E (get "/player/007") =
  served (proxyRequest E (NewProxyServer E)
            (withCORS E (routed (get "/player/007") [("id", "007")])) "/player/7").
Proof.
  rewrite (serve_GET E (get "/player/007") _ _ _ eq_refl eq_refl (route_found_player_007 E)).
  rewrite forwardID_accepted by (rewrite Param_withCORS; reflexivity).
  rewrite !Param_withCORS. reflexivity.
Qed.

(** ** Re-encoding a JSON body *)

(** A body that [json.Unmarshal] accepts goes out as the JSON rendering of
    the decoded value. *)
Lemma json_body_reencoded E p c endpoint resp body v :
  pristine c →
  NewRequest_err E (Method (c_Request c)) (TruckersMPAPIBase +:+ endpoint) = None →
  Do (client p) (upstreamRequest c endpoint) = inl resp →
  ReadAll (Body resp) = (body, None) →
  Unmarshal E body = Some v →
  gin.bodyAllowedForStatus (StatusCode resp) = true →
  ∃ c', proxyRequest E p c endpoint = Returned c'
        ∧ w_body (c_Writer c') = [JSONOf v].
Proof.
  intros (Hw & Hb & Hct) Hn Hd Hr Hu Hallowed.
  rewrite (proxyRequest_built _ _ _ _ Hn), Hd, Hr. cbv zeta. rewrite Hu.
  eexists. split; [reflexivity|].
  rewrite JSON_body by done.
  rewrite (proj1 (Status_frame _ _)), (proj1 (proj2 (copied_frame _ _))).
  by rewrite (proj1 (called_frame _ _)), Hb.
Qed.

(** C3, evaluated.  The upstream sends a player whose steamID64 is
    76561198051773482.  [json.Unmarshal] stores the number as the nearest
    [float64], which is 76561198051773488, and the outbound body is the
    rendering of that value: the same response goes out as for an upstream
    body that says 76561198051773488. *)
Theorem large_integer_not_preserved :
  json.Unmarshal (playerBody "76561198051773482")
    = Some (H [("steamID64", Float64 (S754_finite false 4785074878235843 4))])
  ∧ Float64_integer (S754_finite false 4785074878235843 4) = Some 76561198051773488
  ∧ w_body (c_Writer (final
      (proxyRequest
         (replying (textReply 200 "application/json" (playerBody "76561198051773482")))
         (NewProxyServer
            (replying (textReply 200 "application/json" (playerBody "76561198051773482"))))
         (reset (get "/player/1")) "/player/1")))
    = [JSONOf (H [("steamID64", Float64 (S754_finite false 4785074878235843 4))])]
  ∧ proxyRequest
      (replying (textReply 200 "application/json" (playerBody "76561198051773482")))
      (NewProxyServer
         (replying (textReply 200 "application/json" (playerBody "76561198051773482"))))
      (reset (get "/player/1")) "/player/1"
    = proxyRequest
        (replying (textReply 200 "application/json" (playerBody "76561198051773488")))
        (NewProxyServer
           (replying (textReply 200 "application/json" (playerBody "76561198051773488"))))
        (reset (get "/player/1")) "/player/1".
Proof. repeat split; vm_compute; reflexivity. Qed.

(** Numbers that [float64] holds exactly, and the rest of a document, come
    back as they were sent. *)
Example small_integer_decoded :
  json.Unmarshal (playerBody "1287455")
    = Some (H [("steamID64", Float64 (S754_finite false 5529577120071680 (-32)))])
  ∧ json.Unmarshal "[true, null, 0.5]"
    = Some (Slice [Bool true; Nil; Float64 (S754_finite false 4503599627370496 (-53))])
  ∧ json.Unmarshal "upstream unavailable" = None.
Proof. repeat split; vm_compute; reflexivity. Qed.

(** Strings that [validateID] rejects, and some it accepts. *)
Example rejected_examples :
  rejected "abc" = true ∧ rejected "-1" = true ∧ rejected "" = true
  ∧ rejected "1.5" = true ∧ rejected "12a" = true ∧ rejected "1_000" = true
  ∧ rejected "9223372036854775808" = true
  ∧ rejected "0" = false ∧ rejected "007" = false ∧ rejected "+7" = false
  ∧ rejected "-0" = false ∧ rejected "9223372036854775807" = false.
Proof. repeat split; reflexivity. Qed.


(** * Further properties *)

(** ** The CORS middleware and the synthetic answers *)

Lemma allowedOrigin_nonempty E : allowedOrigin E ≠ "".
Proof.
  unfold allowedOrigin.
  destruct (String.eqb_spec (Getenv E "ORIGIN") "") as [_|Hne]; [discriminate|exact Hne].
Qed.

Lemma Header_nonempty key value c :
  value ≠ "" →
  gin.Header key value c =
  set_Writer (gin.set_header (<[key := [value]]> (w_header (c_Writer c))) (c_Writer c)) c.
Proof.
  intros Hne. unfold gin.Header. by rewrite (proj2 (String.eqb_neq _ _) Hne).
Qed.

Lemma withCORS_header E c :
  w_header (c_Writer (withCORS E c)) =
  <["Access-Control-Allow-Headers" := ["Content-Type, Authorization"]]>
    (<["Access-Control-Allow-Methods" := ["GET, POST, PUT, DELETE, OPTIONS"]]>
       (<["Access-Control-Allow-Origin" := [allowedOrigin E]]> (w_header (c_Writer c)))).
Proof.
  unfold withCORS.
  rewrite (Header_nonempty "Access-Control-Allow-Headers") by discriminate.
  rewrite (Header_nonempty "Access-Control-Allow-Methods") by discriminate.
  rewrite (Header_nonempty "Access-Control-Allow-Origin") by apply allowedOrigin_nonempty.
  reflexivity.
Qed.

Lemma cors_options E next c :
  Method (c_Request c) = "OPTIONS" →
  cors E next c = Returned (gin.AbortWithStatus 204 (withCORS E c)).
Proof.
  intros Hm. unfold cors. fold (withCORS E c).
  rewrite (proj1 (proj2 (proj2 (proj2 (proj2 (withCORS_frame E c)))))).
  by rewrite Hm.
Qed.

Lemma AbortWithStatus_fields code c :
  w_written (c_Writer c) = false → 0 < code →
  w_status (c_Writer (gin.AbortWithStatus code c)) = code
  ∧ w_body (c_Writer (gin.AbortWithStatus code c)) = w_body (c_Writer c)
  ∧ w_header (c_Writer (gin.AbortWithStatus code c)) = w_header (c_Writer c)
  ∧ w_written (c_Writer (gin.AbortWithStatus code c)) = true
  ∧ c_aborted (gin.AbortWithStatus code c) = true
  ∧ c_trace (gin.AbortWithStatus code c) = c_trace c.
Proof.
  intros Hw Hc. unfold gin.AbortWithStatus, gin.Status. simpl.
  destruct (WriteHeader_other code (c_Writer c)) as (Hh & Hb & _).
  rewrite (WriteHeader_status _ _ Hw Hc). repeat split; assumption.
Qed.

Lemma Recovery_returns next c : ∃ c', gin.Recovery next c = Returned c'.
Proof. unfold gin.Recovery. destruct (next c); by eexists. Qed.

(** X1. An OPTIONS request, whatever its path, is answered by the CORS
    middleware alone: status 204, no body, exactly the three CORS headers,
    the chain aborted, nothing sent upstream. *)
Theorem options_answered_204 E req :
  Method req = "OPTIONS" →
  ∃ c', serve E req = Returned c'
        ∧ w_status (c_Writer c') = StatusNoContent
        ∧ w_body (c_Writer c') = []
        ∧ w_header (c_Writer c') = corsHeaders E
        ∧ c_aborted c' = true
        ∧ c_trace c' = [].
Proof.
  intros Hm. unfold serve, ServeHTTP, handleHTTPRequest.
  change (Method (c_Request (reset req))) with (Method req).
  rewrite tree_other_methods by (rewrite Hm; discriminate).
  rewrite (proj2 (middleware_table _ _)), chain_setupRoutes.
  unfold serveError, gin.Recovery. rewrite cors_options by exact Hm.
  set (c0 := withCORS E (set_status StatusNotFound (reset req))).
  assert (w_written (c_Writer c0) = false) as Hw
    by (unfold c0; by rewrite (proj1 (proj2 (proj2 (withCORS_frame _ _))))).
  destruct (AbortWithStatus_fields 204 c0 Hw ltac:(lia))
    as (Hst & Hb & Hh & Hwr & Hab & Htr).
  rewrite Hwr. eexists. split; [reflexivity|].
  split; [exact Hst|]. split; [|split; [|split; [exact Hab|]]].
  - rewrite Hb. unfold c0. by rewrite (proj1 (proj2 (withCORS_frame _ _))).
  - rewrite Hh. unfold c0. by rewrite withCORS_header.
  - rewrite Htr. unfold c0.
    by rewrite (proj1 (proj2 (proj2 (proj2 (withCORS_frame _ _))))).
Qed.

Lemma options_answered_204_witness :
  ∃ c', serve (replying timeout)
          {| Method := "OPTIONS"; URL := "/no/such/path"; Header := ∅ |} = Returned c'
        ∧ w_status (c_Writer c') = 204
        ∧ w_body (c_Writer c') = []
        ∧ w_header (c_Writer c') = corsHeaders (replying timeout)
        ∧ c_aborted c' = true
        ∧ c_trace c' = [].
Proof.
  apply (options_answered_204 (replying timeout)
           {| Method := "OPTIONS"; URL := "/no/such/path"; Header := ∅ |}).
  reflexivity.
Defined.

Lemma route_found_health E :
  getValue ["health"] (tree (setupRoutes E (NewProxyServer E)) "GET")
  = Some (health E, []).
Proof. unfold tree. rewrite routes_table. reflexivity. Qed.

(** X2. GET /health is answered locally: status 200, a JSON object with the
    fixed status and service names and the clock's Unix time, the JSON
    content type beside the CORS headers, and nothing sent upstream. *)
Theorem health_answered_locally E req :
  Method req = "GET" →
  URL req = "/health" →
  ∃ c', serve E req = Returned c'
        ∧ w_status (c_Writer c') = StatusOK
        ∧ w_body (c_Writer c') =
            [JSONOf (H [("status", Str "healthy");
                        ("service", Str "TruckersMP API Proxy");
                        ("timestamp", Int (Now_Unix E))])]
        ∧ w_header (c_Writer c') =
            <["Content-Type" := [gin.jsonContentType]]> (corsHeaders E)
        ∧ c_trace c' = [].
Proof.
  intros Hm Hu.
  rewrite (serve_GET E req ["health"] (health E) []); [|exact Hm|by rewrite Hu|
    apply route_found_health].
  unfold served, health.
  set (c0 := withCORS E (routed req [])).
  destruct (handler_context_pristine E req []) as (Hw & Hb & Hct). fold c0 in Hw, Hb, Hct.
  eexists. split; [reflexivity|]. cbn [c_Writer set_Writer gin.WriteHeaderNow w_status w_body
    w_header c_trace].
  split; [by apply Render_status|]. split; [|split].
  - rewrite JSON_body by done. by rewrite Hb.
  - assert (w_header (c_Writer c0) = corsHeaders E) as Hh
      by (unfold c0; by rewrite withCORS_header).
    unfold gin.JSON. rewrite Render_header. unfold Header_Values. rewrite Hct.
    cbn [default from_option]. by rewrite Hh.
  - unfold gin.JSON. rewrite Render_trace. unfold c0.
    by rewrite (proj1 (proj2 (proj2 (proj2 (withCORS_frame _ _))))).
Qed.

Lemma health_answered_locally_witness :
  ∃ c', serve (replying timeout) (get "/health") = Returned c'
        ∧ w_status (c_Writer c') = 200
        ∧ w_body (c_Writer c') =
            [JSONOf (H [("status", Str "healthy");
                        ("service", Str "TruckersMP API Proxy");
                        ("timestamp", Int 1700000000)])]
        ∧ w_header (c_Writer c') =
            <["Content-Type" := [gin.jsonContentType]]> (corsHeaders (replying timeout))
        ∧ c_trace c' = [].
Proof.
  apply (health_answered_locally (replying timeout) (get "/health")); reflexivity.
Defined.

(** X3. No panic leaves [serve]: whatever the request and the environment,
    the engine returns with a response. *)
Theorem serve_always_returns E req : ∃ c', serve E req = Returned c'.
Proof.
  unfold serve, ServeHTTP, handleHTTPRequest.
  rewrite (proj2 (middleware_table _ _)), !chain_setupRoutes.
  assert (∃ c', serveError StatusNotFound default404Body
                  (gin.Recovery (cors E notFound)) (reset req) = Returned c') as Hunmatched.
  { unfold serveError.
    destruct (Recovery_returns (cors E notFound) (set_status StatusNotFound (reset req)))
      as (c1 & ->).
    destruct (w_written (c_Writer c1)); [by eexists|].
    destruct (w_status (c_Writer c1) =? StatusNotFound); by eexists. }
  destruct (tree _ _) as [|n ns]; [exact Hunmatched|].
  destruct (from_option _ _ _) as [[h ps]|].
  - rewrite chain_setupRoutes.
    destruct (Recovery_returns (cors E h) (set_Params ps (reset req))) as (c1 & ->).
    by eexists.
  - destruct (_ && _); [by eexists|exact Hunmatched].
Qed.


Lemma notFound_answer E req :
  Method req ≠ "OPTIONS" →
  ∃ c', serveError StatusNotFound default404Body
          (gin.Recovery (cors E notFound)) (reset req) = Returned c'
        ∧ w_status (c_Writer c') = StatusNotFound
        ∧ w_body (c_Writer c') = [JSONOf (errorBody "Endpoint not found")]
        ∧ w_header (c_Writer c') =
            <["Content-Type" := [gin.jsonContentType]]> (corsHeaders E)
        ∧ c_trace c' = [].
Proof.
  intros Hopt. unfold serveError, gin.Recovery. rewrite cors_next by done.
  unfold notFound. fold (errorBody "Endpoint not found").
  unfold gin.JSON at 1. rewrite Render_written.
  eexists. split; [reflexivity|].
  set (c0 := withCORS E (set_status StatusNotFound (reset req))).
  destruct (withCORS_frame E (set_status StatusNotFound (reset req)))
    as (_ & Hb & Hw & Htr & _). fold c0 in Hb, Hw, Htr.
  assert (w_header (c_Writer c0) = corsHeaders E) as Hh
    by (unfold c0; by rewrite withCORS_header).
  split; [by apply Render_status|]. split; [|split].
  - rewrite JSON_body by done. by rewrite Hb.
  - unfold gin.JSON. rewrite Render_header, Hh. reflexivity.
  - unfold gin.JSON. by rewrite Render_trace, Htr.
Qed.



(** ** The forwarder, path by path *)

(** X5. When [http.NewRequest] fails, the panic of [proxyRequest] is caught
    by [gin.Recovery]: the caller gets status 500 with no body and no header
    added, the chain is aborted and no request was sent. *)
Theorem construction_failure_recovered E p c endpoint err :
  w_written (c_Writer c) = false →
  NewRequest_err E (Method (c_Request c)) (TruckersMPAPIBase +:+ endpoint) = Some err →
  ∃ c', gin.Recovery (forward E p endpoint) c = Returned c'
        ∧ w_status (c_Writer c') = StatusInternalServerError
        ∧ w_body (c_Writer c') = w_body (c_Writer c)
        ∧ w_header (c_Writer c') = w_header (c_Writer c)
        ∧ c_aborted c' = true
        ∧ c_trace c' =
            c_trace c ++ [EvNewRequest (Method (c_Request c)) (TruckersMPAPIBase +:+ endpoint)].
Proof.
  intros Hw Hn. unfold gin.Recovery, forward. rewrite (proxyRequest_nil _ _ _ _ _ Hn).
  set (c0 := emit _ c).
  destruct (AbortWithStatus_fields StatusInternalServerError c0 Hw ltac:(done))
    as (Hst & Hb & Hh & _ & Hab & Htr).
  eexists. split; [reflexivity|]. by rewrite Hst, Hb, Hh, Hab, Htr.
Qed.

Lemma construction_failure_recovered_witness :
  ∃ c', gin.Recovery (forward (replying timeout) (NewProxyServer (replying timeout)) ctlEndpoint)
          (reset (get "/servers")) = Returned c'
        ∧ w_status (c_Writer c') = 500
        ∧ w_body (c_Writer c') = []
        ∧ w_header (c_Writer c') = ∅
        ∧ c_aborted c' = true
        ∧ c_trace c' = [EvNewRequest "GET" (TruckersMPAPIBase +:+ ctlEndpoint)].
Proof.
  apply (construction_failure_recovered (replying timeout) (NewProxyServer (replying timeout))
           (reset (get "/servers")) ctlEndpoint
           (errorString "net/url: invalid control character in URL"));
    reflexivity.
Defined.

Lemma Render_other_header code ct ch c key :
  key ≠ "Content-Type" →
  w_header (c_Writer (gin.Render code ct ch c)) !! key = w_header (c_Writer c) !! key.
Proof.
  intros Hne. rewrite Render_header.
  destruct (Header_Values _ _); [by rewrite lookup_insert_ne|done].
Qed.

(** X6. When the upstream replied but its body cannot be read, the answer is
    a 500 with the message "Failed to read response"; the upstream status and
    headers are dropped and the call is not repeated. *)
Theorem read_failure_answered_500 E p c endpoint resp partial err :
  w_written (c_Writer c) = false →
  NewRequest_err E (Method (c_Request c)) (TruckersMPAPIBase +:+ endpoint) = None →
  Do (client p) (upstreamRequest c endpoint) = inl resp →
  ReadAll (Body resp) = (partial, Some err) →
  ∃ c', proxyRequest E p c endpoint = Returned c'
        ∧ w_status (c_Writer c') = StatusInternalServerError
        ∧ w_body (c_Writer c') =
            w_body (c_Writer c) ++ [JSONOf (errorBody "Failed to read response")]
        ∧ (∀ key, key ≠ "Content-Type" →
             w_header (c_Writer c') !! key = w_header (c_Writer c) !! key)
        ∧ c_trace c' =
            c_trace c ++ [EvNewRequest (Method (c_Request c)) (TruckersMPAPIBase +:+ endpoint);
                          EvDo (upstreamRequest c endpoint)].
Proof.
  intros Hw Hn Hd Hr. rewrite (proxyRequest_built _ _ _ _ Hn), Hd, Hr.
  eexists. split; [reflexivity|]. split; [|split; [|split]].
  - apply Render_status; [|done]. by rewrite (proj1 (called_frame _ _)).
  - rewrite JSON_body by reflexivity. by rewrite (proj1 (called_frame _ _)).
  - intros key Hne. unfold gin.JSON. rewrite Render_other_header by done.
    by rewrite (proj1 (called_frame _ _)).
  - unfold gin.JSON. rewrite Render_trace. apply called_frame.
Qed.

Lemma read_failure_answered_500_witness :
  ∃ c', proxyRequest
          (replying (inl {| StatusCode := 200; Resp_Header := {["X-Served-By" := ["edge"]]};
                            Body := BrokenStream (errorString "unexpected EOF") |}))
          (NewProxyServer
             (replying (inl {| StatusCode := 200; Resp_Header := {["X-Served-By" := ["edge"]]};
                               Body := BrokenStream (errorString "unexpected EOF") |})))
          (reset (get "/servers")) "/servers" = Returned c'
        ∧ w_status (c_Writer c') = 500
        ∧ w_body (c_Writer c') = [JSONOf (errorBody "Failed to read response")]
        ∧ w_header (c_Writer c') !! "X-Served-By" = None.
Proof.
  destruct (read_failure_answered_500
              (replying (inl {| StatusCode := 200; Resp_Header := {["X-Served-By" := ["edge"]]};
                                Body := BrokenStream (errorString "unexpected EOF") |}))
              (NewProxyServer
                 (replying (inl {| StatusCode := 200;
                                   Resp_Header := {["X-Served-By" := ["edge"]]};
                                   Body := BrokenStream (errorString "unexpected EOF") |})))
              (reset (get "/servers")) "/servers"
              {| StatusCode := 200; Resp_Header := {["X-Served-By" := ["edge"]]};
                 Body := BrokenStream (errorString "unexpected EOF") |}
              "" (errorString "unexpected EOF") eq_refl eq_refl eq_refl eq_refl)
    as (c' & Hret & Hst & Hb & Hh & _).
  exists c'. split; [exact Hret|]. split; [exact Hst|]. split; [exact Hb|].
  rewrite (Hh "X-Served-By") by discriminate. reflexivity.
Defined.

(** X7. The calls [proxyRequest] makes: [http.NewRequest] once, with the
    inbound method and [TruckersMPAPIBase] followed by the endpoint, and then
    [client.Do] once if the request was built and not at all otherwise;
    whatever the upstream does, there is no second call. *)
Theorem forwarder_calls E p c endpoint :
  c_trace (final (proxyRequest E p c endpoint)) =
  c_trace c ++
    EvNewRequest (Method (c_Request c)) (TruckersMPAPIBase +:+ endpoint)
    :: match NewRequest_err E (Method (c_Request c)) (TruckersMPAPIBase +:+ endpoint) with
       | None => [EvDo (upstreamRequest c endpoint)]
       | Some _ => []
       end.
Proof.
  destruct (NewRequest_err _ _ _) as [err|] eqn:Hn.
  - by rewrite (proxyRequest_nil _ _ _ _ _ Hn).
  - by apply proxyRequest_trace.
Qed.


Lemma settle_last o vs :
  settle o vs =
  match last vs with
  | None => o
  | Some v => if String.eqb v "" then None else Some [v]
  end.
Proof.
  unfold settle. induction vs as [|v vs IH] using rev_ind; [done|].
  by rewrite foldl_app, last_snoc.
Qed.

Lemma relayed_header c endpoint resp key :
  w_header (c_Writer
    (gin.Status (StatusCode resp)
       (range_Header gin.Header (Resp_Header resp) (called c endpoint)))) !! key
  = relayed (w_header (c_Writer c) !! key) (Resp_Header resp !! key).
Proof.
  rewrite (proj1 (proj2 (proj2 (Status_frame _ _)))).
  unfold range_Header. rewrite copied_lookup by apply NoDup_fst_map_to_list.
  rewrite list_to_map_to_list, (proj1 (called_frame _ _)).
  unfold relayed, last_value. destruct (Resp_Header resp !! key) as [vs|]; [|done].
  apply settle_last.
Qed.





(** ** validateID and the rendering of ids *)

(** X10. [validateID] either accepts, returning an id between 0 and the
    largest [int] and leaving the context as it was, or rejects, answering
    400 with the message that names the parameter and returning 0; it sends
    nothing upstream in either case. *)
Theorem validateID_contract c paramName :
  w_written (c_Writer c) = false →
  (∃ id, validateID c paramName = (c, (id, true))
         ∧ strconv.Atoi (gin.Param c paramName) = Some id
         ∧ 0 ≤ id ≤ strconv.maxInt)
  ∨ (∃ c', validateID c paramName = (c', (0, false))
           ∧ rejected (gin.Param c paramName) = true
           ∧ w_status (c_Writer c') = StatusBadRequest
           ∧ w_body (c_Writer c') =
               w_body (c_Writer c)
               ++ [JSONOf (errorBody ("Invalid " +:+ paramName +:+ " parameter"))]
           ∧ w_written (c_Writer c') = true
           ∧ c_trace c' = c_trace c).
Proof.
  intros Hw. destruct (rejected (gin.Param c paramName)) eqn:Hrej.
  - right. rewrite (validateID_rejected _ _ Hrej). eexists. split; [reflexivity|].
    split; [done|]. split; [by apply Render_status|]. split; [by rewrite JSON_body|].
    split; [apply Render_written|apply Render_trace].
  - left. destruct (validateID_accepted _ _ Hrej) as (id & Ha & Hpos & Hv).
    exists id. split; [exact Hv|]. split; [exact Ha|]. split; [exact Hpos|].
    by apply (Atoi_range _ _ Ha).
Qed.

Lemma validateID_contract_witness :
  ∃ id, validateID (routed (get "/player/+42") [("id", "+42")]) "id"
          = (routed (get "/player/+42") [("id", "+42")], (id, true))
        ∧ strconv.Atoi "+42" = Some id
        ∧ 0 ≤ id ≤ strconv.maxInt.
Proof.
  destruct (validateID_contract (routed (get "/player/+42") [("id", "+42")]) "id" eq_refl)
    as [Hacc|(c' & _ & Hrej & _)].
  - exact Hacc.
  - discriminate Hrej.
Defined.


Lemma Atoi_cons ch t :
  strconv.Atoi (String ch t) =
  let '(neg, s1) :=
    if Ascii.eqb ch "-" then (true, t)
    else if Ascii.eqb ch "+" then (false, t)
    else (false, String ch t) in
  match s1 with
  | EmptyString => None
  | _ =>
      match strconv.digits 0 s1 with
      | Some n =>
          let v := if neg : bool then - n else n in
          if (strconv.minInt <=? v) && (v <=? strconv.maxInt) then Some v else None
      | None => None
      end
  end.
Proof. destruct ch as [[] [] [] [] [] [] [] []]; reflexivity. Qed.

Lemma digits_all_digits s acc n :
  strconv.digits acc s = Some n → all_digits s = true.
Proof.
  revert acc. induction s as [|ch s IH]; intros acc; [done|]. simpl.
  unfold is_digit. destruct (strconv.digit ch) as [d|]; [|done].
  intros Hd. by rewrite (IH _ Hd).
Qed.

Lemma digit_bounds ch d : strconv.digit ch = Some d → 0 ≤ d ≤ 9.
Proof.
  unfold strconv.digit.
  destruct (Z.leb_spec 0 (Z.of_N (N_of_ascii ch) - 48)); [|done].
  destruct (Z.leb_spec (Z.of_N (N_of_ascii ch) - 48) 9); [|done].
  intros [= <-]. lia.
Qed.

Lemma digits_lower s acc n : strconv.digits acc s = Some n → 0 ≤ acc → acc ≤ n.
Proof.
  revert acc. induction s as [|ch s IH]; intros acc; simpl; [intros [= <-]; lia|].
  destruct (strconv.digit ch) as [d|] eqn:Hd; [|done].
  intros Hs Hacc. apply digit_bounds in Hd. apply IH in Hs; lia.
Qed.

(** X11. A parameter that [validateID] accepts is an optional sign followed
    by one or more decimal digits and nothing else; with a minus sign it is
    accepted only when its value is zero. *)
Theorem accepted_parameter_syntax s :
  rejected s = false →
  ∃ sign d,
    s = sign +:+ d
    ∧ (sign = "" ∨ sign = "+" ∨ sign = "-")
    ∧ numeric d = true
    ∧ (sign = "-" → strconv.Atoi s = Some 0).
Proof.
  unfold rejected. destruct s as [|ch t]; [done|]. rewrite Atoi_cons.
  destruct (Ascii.eqb_spec ch "-") as [->|Hminus];
    [|destruct (Ascii.eqb_spec ch "+") as [->|Hplus]]; cbv zeta iota beta.
  - destruct t as [|ch' t']; [done|].
    destruct (strconv.digits 0 (String ch' t')) as [n|] eqn:Hd; [|done].
    pose proof (digits_lower _ _ _ Hd ltac:(lia)) as Hn.
    destruct (_ && _); [|done]. intros Hneg. apply Z.ltb_ge in Hneg.
    exists "-", (String ch' t'). split; [done|]. split; [auto|].
    split; [by apply (digits_all_digits _ _ _ Hd)|].
    intros _. f_equal. lia.
  - destruct t as [|ch' t']; [done|].
    destruct (strconv.digits 0 (String ch' t')) as [n|] eqn:Hd; [|done].
    intros _. exists "+", (String ch' t'). split; [done|]. split; [auto|].
    split; [by apply (digits_all_digits _ _ _ Hd)|]. discriminate.
  - destruct (strconv.digits 0 (String ch t)) as [n|] eqn:Hd; [|done].
    intros _. exists "", (String ch t). split; [done|]. split; [auto|].
    split; [by apply (digits_all_digits _ _ _ Hd)|]. discriminate.
Qed.

Lemma accepted_parameter_syntax_witness :
  ∃ sign d,
    "-000" = sign +:+ d
    ∧ (sign = "" ∨ sign = "+" ∨ sign = "-")
    ∧ numeric d = true
    ∧ (sign = "-" → strconv.Atoi "-000" = Some 0).
Proof. exact (accepted_parameter_syntax "-000" eq_refl). Defined.

Lemma string_of_uint_digits d : all_digits (NilEmpty.string_of_uint d) = true.
Proof. induction d; simpl; try done; by rewrite IHd. Qed.

Lemma to_uint_no_leading_zero p d : Pos.to_uint p ≠ Decimal.D0 d.
Proof.
  intros Heq.
  pose proof (DecimalPos.Unsigned.to_of (Pos.to_uint p)) as Hnorm.
  rewrite DecimalPos.Unsigned.of_to in Hnorm. simpl in Hnorm.
  rewrite Heq, DecimalFacts.unorm_D0 in Hnorm.
  destruct (Decimal.uint_eq_dec d Decimal.Nil) as [->|Hnil].
  - apply (DecimalPos.Unsigned.to_uint_nonzero p). by rewrite Heq.
  - pose proof (DecimalFacts.nb_digits_unorm d Hnil) as Hle.
    rewrite <- Hnorm in Hle. simpl in Hle. lia.
Qed.

(** X12. The rendering of an accepted id has decimal digits only, no sign
    and no leading zero, and parses back to the id; so different ids never
    share an upstream path and no inbound text reaches it. *)
Theorem rendered_id_canonical n :
  0 ≤ n ≤ strconv.maxInt →
  numeric (strconv.Itoa n) = true
  ∧ (n ≠ 0 → ∃ ch r, strconv.Itoa n = String ch r ∧ ch ≠ "0"%char)
  ∧ strconv.Atoi (strconv.Itoa n) = Some n
  ∧ (∀ m, 0 ≤ m ≤ strconv.maxInt → strconv.Itoa m = strconv.Itoa n → m = n).
Proof.
  intros Hn. split; [|split; [|split]].
  - destruct n as [|p|p]; [reflexivity| |lia].
    unfold strconv.Itoa. cbn [Z.to_int NilZero.string_of_int]. unfold NilZero.string_of_uint.
    pose proof (DecimalPos.Unsigned.to_uint_nonnil p) as Hnn.
    pose proof (string_of_uint_digits (Pos.to_uint p)) as Hd.
    by destruct (Pos.to_uint p).
  - intros Hnz. destruct n as [|p|p]; [done| |lia].
    unfold strconv.Itoa. cbn [Z.to_int NilZero.string_of_int]. unfold NilZero.string_of_uint.
    pose proof (DecimalPos.Unsigned.to_uint_nonnil p) as Hnn.
    pose proof (to_uint_no_leading_zero p) as Hlz.
    destruct (Pos.to_uint p) as [|d|d|d|d|d|d|d|d|d|d]; [done|by destruct (Hlz d)|..];
      cbn [NilEmpty.string_of_uint]; by eexists _, _.
  - by apply Atoi_Itoa.
  - intros m Hm Heq. apply (f_equal strconv.Atoi) in Heq.
    rewrite !Atoi_Itoa in Heq by done. by injection Heq.
Qed.

Lemma rendered_id_canonical_witness :
  numeric (strconv.Itoa 1287455) = true
  ∧ (1287455 ≠ 0 → ∃ ch r, strconv.Itoa 1287455 = String ch r ∧ ch ≠ "0"%char)
  ∧ strconv.Atoi (strconv.Itoa 1287455) = Some 1287455
  ∧ (∀ m, 0 ≤ m ≤ strconv.maxInt → strconv.Itoa m = strconv.Itoa 1287455 → m = 1287455).
Proof.
  apply (rendered_id_canonical 1287455). unfold strconv.maxInt, strconv.intSize. lia.
Defined.


(** ** The router and the route table *)

Lemma tree_GET E p :
  tree (setupRoutes E p) "GET" =
  [([Lit "health"], [], health E);
   ([Lit "player"; Par "id"], [], forwardID E p "/player/%d");
   ([Lit "bans"; Par "id"], [], forwardID E p "/bans/%d");
   ([Lit "servers"], [], forward E p "/servers");
   ([Lit "game_time"], [], forward E p "/game_time");
   ([Lit "events"], [], forward E p "/events");
   ([Lit "events"; Par "id"], [], forwardID E p "/events/%d");
   ([Lit "events"; Lit "user"; Par "id"], [], forwardID E p "/events/user/%d");
   ([Lit "vtc"], [], forward E p "/vtc");
   ([Lit "vtc"; Par "id"], [], forwardID E p "/vtc/%d");
   ([Lit "vtc"; Par "id"; Lit "news"], [], forwardID E p "/vtc/%d/news");
   ([Lit "vtc"; Par "id"; Lit "news"; Par "news_id"], [],
    forwardID2 E p "news_id" "/vtc/%d/news/%d");
   ([Lit "vtc"; Par "id"; Lit "roles"], [], forwardID E p "/vtc/%d/roles");
   ([Lit "vtc"; Par "id"; Lit "role"; Par "role_id"], [],
    forwardID2 E p "role_id" "/vtc/%d/role/%d");
   ([Lit "vtc"; Par "id"; Lit "members"], [], forwardID E p "/vtc/%d/members");
   ([Lit "vtc"; Par "id"; Lit "member"; Par "member_id"], [],
    forwardID2 E p "member_id" "/vtc/%d/member/%d");
   ([Lit "vtc"; Par "id"; Lit "events"], [], forwardID E p "/vtc/%d/events");
   ([Lit "vtc"; Par "id"; Lit "events"; Par "event_id"], [],
    forwardID2 E p "event_id" "/vtc/%d/events/%d");
   ([Lit "vtc"; Par "id"; Lit "events"; Lit "attending"], [],
    forwardID E p "/vtc/%d/events/attending");
   ([Lit "vtc"; Par "id"; Lit "partners"], [], forwardID E p "/vtc/%d/partners");
   ([Lit "version"], [], forward E p "/version");
   ([Lit "rules"], [], forward E p "/rules")].
Proof. unfold tree. rewrite routes_table. reflexivity. Qed.

Lemma getValue_nil path : getValue path [] = None.
Proof. induction path as [|x path IH]; [done|]. simpl. rewrite IH. by destruct (String.eqb x ""). Qed.

Lemma cut_slash_cons ch r :
  cut_slash (String ch r) =
  if Ascii.eqb ch "/" then (EmptyString, Some r)
  else (String ch (cut_slash r).1, (cut_slash r).2).
Proof.
  destruct ch as [[] [] [] [] [] [] [] []]; simpl; try reflexivity;
    by destruct (cut_slash r).
Qed.

Lemma cut_slash_app s r :
  cut_slash s = (s, None) → cut_slash (s +:+ String "/" r) = (s, Some r).
Proof.
  induction s as [|ch s IH]; [done|].
  change (String ch s +:+ String "/" r) with (String ch (s +:+ String "/" r)).
  rewrite !cut_slash_cons. destruct (Ascii.eqb ch "/"); [done|].
  destruct (cut_slash s) as [x o] eqn:Hc. simpl. intros [= -> ->].
  by rewrite IH.
Qed.

Lemma split_fuel_path_of ss s fuel :
  Forall (λ sg, cut_slash sg = (sg, None)) (s :: ss) →
  (length ss ≤ fuel)%nat →
  split_fuel fuel (s +:+ path_of ss) = s :: ss.
Proof.
  revert s fuel. induction ss as [|s' ss IH]; intros s fuel Hall Hfuel.
  - apply Forall_cons in Hall as [Hs _]. cbn [path_of foldr]. rewrite append_empty_r.
    destruct fuel; [done|]. simpl. by rewrite Hs.
  - apply Forall_cons in Hall as [Hs Hall].
    destruct fuel as [|fuel]; [simpl in Hfuel; lia|].
    change (path_of (s' :: ss)) with (String "/" (s' +:+ path_of ss)).
    cbn [split_fuel]. rewrite (cut_slash_app _ _ Hs).
    rewrite IH; [done|done|simpl in Hfuel; lia].
Qed.

Lemma length_append_string (a b : string) :
  String.length (a +:+ b) = (String.length a + String.length b)%nat.
Proof.
  induction a as [|ch a IH]; [done|].
  change (String ch a +:+ b) with (String ch (a +:+ b)). simpl. by rewrite IH.
Qed.

Lemma length_path_of ss : (length ss ≤ String.length (path_of ss))%nat.
Proof.
  induction ss as [|s ss IH]; [done|].
  change (path_of (s :: ss)) with (String "/" (s +:+ path_of ss)).
  simpl. rewrite length_append_string. lia.
Qed.

(** The segments of a path built from slash-free segments are those
    segments. *)
Lemma segments_path_of s ss :
  Forall (λ sg, cut_slash sg = (sg, None)) (s :: ss) →
  segments (path_of (s :: ss)) = Some (s :: ss).
Proof.
  intros Hall.
  change (path_of (s :: ss)) with (String "/" (s +:+ path_of ss)).
  cbn [segments]. f_equal. apply split_fuel_path_of; [done|].
  rewrite length_append_string. pose proof (length_path_of ss). lia.
Qed.

Lemma no_slash_cut v : no_slash v = true → cut_slash v = (v, None).
Proof.
  induction v as [|ch v IH]; [done|]. intros Hall. cbn [no_slash] in Hall.
  apply andb_true_iff in Hall as [Hd Hv]. apply negb_true_iff in Hd.
  rewrite cut_slash_cons, Hd, (IH Hv). reflexivity.
Qed.

Lemma one_segment_cut v : one_segment v = true → cut_slash v = (v, None).
Proof.
  unfold one_segment. intros Hv. apply andb_true_iff in Hv as [_ Hv].
  by apply no_slash_cut.
Qed.

Lemma one_segment_nonempty v : one_segment v = true → String.eqb v "" = false.
Proof.
  unfold one_segment. intros Hv. apply andb_true_iff in Hv as [Hv _].
  by apply negb_true_iff in Hv.
Qed.

Lemma getValue_static x path nodes r :
  getValue path (omap (step_lit x) nodes) = Some r →
  getValue (x :: path) nodes = Some r.
Proof. intros Hr. cbn [getValue]. by rewrite Hr. Qed.

Lemma getValue_param x path nodes r :
  String.eqb x "" = false →
  getValue path (omap (step_lit x) nodes) = None →
  getValue path (omap (step_par x) nodes) = Some r →
  getValue (x :: path) nodes = Some r.
Proof. intros Hx Hlit Hr. cbn [getValue]. by rewrite Hlit, Hx. Qed.

Lemma omap_none {A B} (f : A → option B) (l : list A) :
  Forall (λ a, f a = None) l → omap f l = [].
Proof.
  induction 1 as [|a l Ha _ IH]; [reflexivity|].
  cbn [omap list_omap]. rewrite Ha. exact IH.
Qed.

Ltac eval_nodes :=
  cbn [omap list_omap step_lit step_par at_end head app
       String.eqb Ascii.eqb Bool.eqb].

Ltac eval_nodes_of_value :=
  cbn [omap list_omap step_lit step_par at_end head app].

(** One segment of the descent.  A variable is a parameter value: no static
    child leads to a route, by the facts at hand about the value or either
    way, and the parameter child is taken.  Anything else is a literal of
    the path. *)
Ltac descend :=
  lazymatch goal with
  | |- getValue (?x :: _) _ = Some _ =>
      tryif is_var x then
        (apply getValue_param;
         [ by apply one_segment_nonempty
         | eval_nodes_of_value;
           repeat match goal with
                  | H : String.eqb _ x = false |- _ => rewrite H
                  end;
           repeat match goal with
                  | |- context [String.eqb ?w x] => destruct (String.eqb w x)
                  end;
           first [apply getValue_nil | cbn [getValue]; eval_nodes; reflexivity]
         | eval_nodes_of_value ])
      else (apply getValue_static; eval_nodes)
  | |- getValue [] _ = Some _ => cbn [getValue]; eval_nodes; reflexivity
  end.

Ltac eval_pattern :=
  repeat match goal with
         | |- context [pattern_params ?pat] =>
             let ps := eval vm_compute in (pattern_params pat) in
             change (pattern_params pat) with ps in *
         | |- context [parse_pattern ?pat] =>
             let ps := eval vm_compute in (parse_pattern pat) in
             change (parse_pattern pat) with ps in *
         end.

Lemma not_attending v vals : "attending" ∉ v :: vals → String.eqb "attending" v = false.
Proof.
  intros Hnot. apply String.eqb_neq. intros Heq. apply Hnot. rewrite Heq.
  apply elem_of_cons. by left.
Qed.

Lemma not_elem_of_tail {A} (x y : A) l : x ∉ y :: l → x ∉ l.
Proof. intros Hnot Hin. apply Hnot. apply elem_of_cons. by right. Qed.

(** The router finds a route under each path made from its pattern. *)
Lemma route_reached E method pattern h vals :
  (method, pattern, h) ∈ routes (setupRoutes E (NewProxyServer E)) →
  length vals = length (pattern_params pattern) →
  Forall (λ v, one_segment v = true) vals →
  "attending" ∉ vals →
  lookup_route E "GET" (path_of (fill (parse_pattern pattern) vals))
  = Some (h, zip (pattern_params pattern) vals).
Proof.
  intros Hin Hlen Hseg Hatt. unfold lookup_route.
  each_route Hin; eval_pattern;
    cbn [length] in Hlen;
    destruct vals as [|v1 [|v2 [|v3 vals]]]; try discriminate Hlen;
    repeat match goal with
           | H : Forall _ (_ :: _) |- _ => apply Forall_cons in H as [? H]
           end;
    repeat match goal with
           | H : "attending" ∉ ?v :: _ |- _ =>
               pose proof (not_attending _ _ H); apply not_elem_of_tail in H
           end;
    cbn [fill zip zip_with];
    (rewrite segments_path_of;
     [ rewrite tree_GET; repeat descend
     | repeat (apply Forall_cons; split; [first [by apply one_segment_cut|reflexivity]|]);
       apply Forall_nil_2 ]).
Qed.

Lemma serve_lookup E req h ps :
  Method req = "GET" →
  lookup_route E "GET" (URL req) = Some (h, ps) →
  serve E req = served (h (withCORS E (routed req ps))).
Proof.
  unfold lookup_route. intros Hm Hlook.
  destruct (segments (URL req)) as [ss|] eqn:Hss; [|discriminate Hlook].
  by apply (serve_GET E req ss).
Qed.

(** X13. Every route of the table is reached by its own paths: a GET
    request for a registered pattern, with non-empty slash-free texts other
    than the word "attending" in its parameter places, runs that route's
    handler, behind the CORS headers, with each text bound to its parameter
    name, whether or not the text is a number. *)
Theorem request_dispatched E req method pattern h vals :
  Method req = "GET" →
  (method, pattern, h) ∈ routes (setupRoutes E (NewProxyServer E)) →
  length vals = length (pattern_params pattern) →
  Forall (λ v, one_segment v = true) vals →
  "attending" ∉ vals →
  URL req = path_of (fill (parse_pattern pattern) vals) →
  serve E req = served (h (withCORS E (routed req (zip (pattern_params pattern) vals)))).
Proof.
  intros Hm Hin Hlen Hseg Hatt Hurl. apply serve_lookup; [exact Hm|].
  rewrite Hurl. by apply (route_reached E method).
Qed.

Lemma request_dispatched_witness :
  serve (replying timeout) (get "/events/user") =
  served (forwardID (replying timeout) (NewProxyServer (replying timeout)) "/events/%d"
            (withCORS (replying timeout) (routed (get "/events/user") [("id", "user")]))).
Proof.
  apply (request_dispatched (replying timeout) (get "/events/user")
           "GET" "/events/:id"
           (forwardID (replying timeout) (NewProxyServer (replying timeout)) "/events/%d")
           ["user"]).
  - reflexivity.
  - rewrite routes_table. apply list_elem_of_lookup. by exists 6%nat.
  - reflexivity.
  - repeat (apply Forall_cons; split; [reflexivity|]). apply Forall_nil_2.
  - intros Hin. apply elem_of_cons in Hin as [Hin|Hin]; [discriminate Hin|].
    by apply elem_of_nil in Hin.
  - reflexivity.
Defined.

(** X14. A path whose first segment is none of the nine registered
    resource names matches no route, whatever follows it. *)
Theorem unknown_resource_unmatched E path s rest :
  segments path = Some (s :: rest) →
  s ∉ registered_roots →
  lookup_route E "GET" path = None.
Proof.
  intros Hss Hnot. unfold lookup_route. rewrite Hss, tree_GET.
  assert (Forall (λ w, String.eqb w s = false) registered_roots) as Hne.
  { apply Forall_forall. intros w Hw. apply String.eqb_neq.
    intros ->. exact (Hnot Hw). }
  unfold registered_roots in Hne.
  repeat match type of Hne with
         | Forall _ (_ :: _) => apply Forall_cons in Hne as [? Hne]
         end.
  cbn [getValue].
  rewrite (omap_none (step_lit s)).
  2: { repeat (apply Forall_cons; split;
               [cbn [step_lit]; by match goal with
                                   | H : String.eqb ?w s = false |- _ => rewrite H
                                   end|]).
       apply Forall_nil_2. }
  rewrite getValue_nil. destruct (String.eqb s ""); [reflexivity|].
  rewrite (omap_none (step_par s)).
  2: { repeat (apply Forall_cons; split; [reflexivity|]). apply Forall_nil_2. }
  apply getValue_nil.
Qed.

Lemma unknown_resource_unmatched_witness :
  lookup_route (replying timeout) "GET" "/players/5" = None.
Proof.
  apply (unknown_resource_unmatched (replying timeout) "/players/5" "players" ["5"]).
  - reflexivity.
  - unfold registered_roots. intros Hin.
    repeat (apply elem_of_cons in Hin as [Hin|Hin]; [discriminate Hin|]).
    by apply elem_of_nil in Hin.
Defined.

Lemma first_rejected_withCORS E c names :
  first_rejected (withCORS E c) names = first_rejected c names.
Proof.
  induction names as [|name names IH]; [done|].
  cbn [first_rejected]. by rewrite Param_withCORS, IH.
Qed.

(** What a route's handler does with a rejected parameter. *)
Lemma route_rejects E p method pattern h c name :
  (method, pattern, h) ∈ routes (setupRoutes E p) →
  first_rejected c (pattern_params pattern) = Some name →
  h c = Returned (gin.JSON StatusBadRequest
                    (errorBody ("Invalid " +:+ name +:+ " parameter")) c).
Proof.
  intros Hin Hfirst.
  each_route Hin; eval_params Hfirst; cbn [first_rejected] in Hfirst;
    try discriminate Hfirst;
    destruct (rejected (gin.Param c "id")) eqn:Hid;
    try (injection Hfirst as <-; unfold forwardID, forwardID2;
         by rewrite (validateID_rejected _ _ Hid));
    try discriminate Hfirst;
    match type of Hfirst with
    | (if rejected (gin.Param c ?n) then _ else _) = _ =>
        destruct (rejected (gin.Param c n)) eqn:Hsub; [|discriminate Hfirst];
        injection Hfirst as <-; unfold forwardID2;
        destruct (validateID_accepted _ _ Hid) as (id & _ & _ & ->);
        by rewrite (validateID_rejected _ _ Hsub)
    end.
Qed.

(** X15. Through the router: a GET request for a registered pattern in which
    a parameter place holds a text that [validateID] rejects is answered 400
    with the message naming the first such parameter, under the JSON content
    type and the CORS headers, and nothing is sent upstream. *)
Theorem rejected_request_answered_400 E req method pattern h vals name :
  Method req = "GET" →
  (method, pattern, h) ∈ routes (setupRoutes E (NewProxyServer E)) →
  length vals = length (pattern_params pattern) →
  Forall (λ v, one_segment v = true) vals →
  "attending" ∉ vals →
  URL req = path_of (fill (parse_pattern pattern) vals) →
  first_rejected (routed req (zip (pattern_params pattern) vals)) (pattern_params pattern)
  = Some name →
  ∃ c', serve E req = Returned c'
        ∧ w_status (c_Writer c') = StatusBadRequest
        ∧ w_body (c_Writer c') =
            [JSONOf (errorBody ("Invalid " +:+ name +:+ " parameter"))]
        ∧ w_header (c_Writer c') =
            <["Content-Type" := [gin.jsonContentType]]> (corsHeaders E)
        ∧ c_trace c' = [].
Proof.
  intros Hm Hin Hlen Hseg Hatt Hurl Hfirst.
  rewrite (serve_lookup E req h (zip (pattern_params pattern) vals) Hm)
    by (rewrite Hurl; by apply (route_reached E method)).
  set (ps := zip (pattern_params pattern) vals) in *.
  set (c0 := withCORS E (routed req ps)).
  rewrite (route_rejects E _ method pattern h c0 name Hin)
    by (unfold c0; by rewrite first_rejected_withCORS).
  destruct (handler_context_pristine E req ps) as (Hw & Hb & Hct).
  fold c0 in Hw, Hb, Hct.
  unfold served. eexists. split; [reflexivity|].
  cbn [c_Writer set_Writer gin.WriteHeaderNow w_status w_body w_header c_trace].
  split; [by apply Render_status|]. split; [|split].
  - rewrite JSON_body by done. by rewrite Hb.
  - assert (w_header (c_Writer c0) = corsHeaders E) as Hh
      by (unfold c0; by rewrite withCORS_header).
    unfold gin.JSON. rewrite Render_header. unfold Header_Values. rewrite Hct.
    cbn [default from_option]. by rewrite Hh.
  - unfold gin.JSON. rewrite Render_trace. unfold c0.
    by rewrite (proj1 (proj2 (proj2 (proj2 (withCORS_frame _ _))))).
Qed.

Lemma rejected_request_answered_400_witness :
  ∃ c', serve (replying timeout) (get "/vtc/12/member/-3") = Returned c'
        ∧ w_status (c_Writer c') = 400
        ∧ w_body (c_Writer c') = [JSONOf (errorBody "Invalid member_id parameter")]
        ∧ w_header (c_Writer c') =
            <["Content-Type" := [gin.jsonContentType]]> (corsHeaders (replying timeout))
        ∧ c_trace c' = [].
Proof.
  apply (rejected_request_answered_400 (replying timeout) (get "/vtc/12/member/-3")
           "GET" "/vtc/:id/member/:member_id"
           (forwardID2 (replying timeout) (NewProxyServer (replying timeout))
              "member_id" "/vtc/%d/member/%d")
           ["12"; "-3"] "member_id").
  - reflexivity.
  - rewrite routes_table. apply list_elem_of_lookup. by exists 15%nat.
  - reflexivity.
  - repeat (apply Forall_cons; split; [reflexivity|]). apply Forall_nil_2.
  - intros Hin. repeat (apply elem_of_cons in Hin as [Hin|Hin]; [discriminate Hin|]).
    by apply elem_of_nil in Hin.
  - reflexivity.
  - reflexivity.
Defined.

(** ** What every answer carries *)

Lemma step_lit_handler x n n' : step_lit x n = Some n' → n'.2 = n.2.
Proof.
  destruct n as [[[|[s|name] pat] ps] h]; cbn [step_lit]; try discriminate.
  destruct (String.eqb s x); [|discriminate]. by intros [= <-].
Qed.

Lemma step_par_handler x n n' : step_par x n = Some n' → n'.2 = n.2.
Proof.
  destruct n as [[[|[s|name] pat] ps] h]; cbn [step_par]; try discriminate.
  by intros [= <-].
Qed.

(** The handler the router returns is the handler of one of its nodes. *)
Lemma getValue_handler path nodes h ps :
  getValue path nodes = Some (h, ps) → ∃ n, n ∈ nodes ∧ n.2 = h.
Proof.
  revert nodes. induction path as [|x path IH]; intros nodes; cbn [getValue].
  - destruct (omap at_end nodes) as [|r rs] eqn:Hends; [discriminate|].
    cbn [head]. intros [= ->].
    assert ((h, ps) ∈ omap at_end nodes) as Hin
      by (rewrite Hends; apply elem_of_cons; by left).
    apply list_elem_of_omap in Hin as (n & Hn & Hend). exists n. split; [exact Hn|].
    destruct n as [[[|sg pat] ps0] h0]; cbn [at_end] in Hend; [|discriminate].
    by injection Hend as -> _.
  - destruct (getValue path (omap (step_lit x) nodes)) as [r|] eqn:Hlit.
    + intros [= ->]. apply IH in Hlit as (n' & Hin & Hh).
      apply list_elem_of_omap in Hin as (n & Hn & Hstep). exists n. split; [exact Hn|].
      by rewrite <- (step_lit_handler _ _ _ Hstep).
    + destruct (String.eqb x ""); [discriminate|]. intros Hpar.
      apply IH in Hpar as (n' & Hin & Hh).
      apply list_elem_of_omap in Hin as (n & Hn & Hstep). exists n. split; [exact Hn|].
      by rewrite <- (step_par_handler _ _ _ Hstep).
Qed.

Lemma tree_handler r method n :
  n ∈ tree r method → ∃ pattern, (method, pattern, n.2) ∈ routes r.
Proof.
  unfold tree. intros Hin. apply list_elem_of_omap in Hin as ([[m pattern] h] & Hr & Hn).
  destruct (String.eqb_spec m method) as [->|]; [|discriminate].
  injection Hn as <-. by exists pattern.
Qed.

Lemma WriteHeader_header code w : w_header (gin.WriteHeader code w) = w_header w.
Proof. unfold gin.WriteHeader. destruct (_ && _); [|done]. by destruct (w_written w). Qed.

Lemma AbortWithStatus_header code c :
  w_header (c_Writer (gin.AbortWithStatus code c)) = w_header (c_Writer c).
Proof. unfold gin.AbortWithStatus, gin.Status. simpl. apply WriteHeader_header. Qed.

Lemma JSON_other_header code obj c key :
  key ≠ "Content-Type" →
  w_header (c_Writer (gin.JSON code obj c)) !! key = w_header (c_Writer c) !! key.
Proof. intros Hne. unfold gin.JSON. by apply Render_other_header. Qed.

(** [proxyRequest] leaves alone a header that the upstream does not send. *)
Lemma proxyRequest_keeps_header E p c endpoint key :
  key ≠ "Content-Type" →
  (∀ r resp, Do (client p) r = inl resp → Resp_Header resp !! key = None) →
  w_header (c_Writer (final (proxyRequest E p c endpoint))) !! key
  = w_header (c_Writer c) !! key.
Proof.
  intros Hne Hup.
  destruct (NewRequest_err E (Method (c_Request c)) (TruckersMPAPIBase +:+ endpoint))
    as [err|] eqn:Hn.
  { by rewrite (proxyRequest_nil _ _ _ _ _ Hn). }
  rewrite (proxyRequest_built _ _ _ _ Hn).
  destruct (Do (client p) (upstreamRequest c endpoint)) as [resp|err] eqn:Hd.
  - destruct (ReadAll (Body resp)) as [body [err|]].
    + cbn [final]. rewrite JSON_other_header by done.
      by rewrite (proj1 (called_frame _ _)).
    + cbv zeta.
      destruct (Unmarshal E body); cbn [final]; unfold gin.JSON, gin.Data;
        rewrite Render_other_header by done; rewrite relayed_header;
        by rewrite (Hup _ _ Hd).
  - cbn [final]. rewrite JSON_other_header by done.
    by rewrite (proj1 (called_frame _ _)).
Qed.

Lemma validateID_keeps_header c name key :
  key ≠ "Content-Type" →
  w_header (c_Writer (validateID c name).1) !! key = w_header (c_Writer c) !! key.
Proof.
  intros Hne. destruct (rejected (gin.Param c name)) eqn:Hr.
  - rewrite (validateID_rejected _ _ Hr). cbn [fst]. by apply JSON_other_header.
  - by destruct (validateID_accepted _ _ Hr) as (id & _ & _ & ->).
Qed.

Lemma forwardID_keeps_header E p format c key :
  key ≠ "Content-Type" →
  (∀ r resp, Do (client p) r = inl resp → Resp_Header resp !! key = None) →
  w_header (c_Writer (final (forwardID E p format c))) !! key
  = w_header (c_Writer c) !! key.
Proof.
  intros Hne Hup. unfold forwardID.
  destruct (rejected (gin.Param c "id")) eqn:Hr.
  - rewrite (validateID_rejected _ _ Hr). cbn [final]. by apply JSON_other_header.
  - destruct (validateID_accepted _ _ Hr) as (id & _ & _ & ->).
    by apply proxyRequest_keeps_header.
Qed.

Lemma forwardID2_keeps_header E p name format c key :
  key ≠ "Content-Type" →
  (∀ r resp, Do (client p) r = inl resp → Resp_Header resp !! key = None) →
  w_header (c_Writer (final (forwardID2 E p name format c))) !! key
  = w_header (c_Writer c) !! key.
Proof.
  intros Hne Hup. unfold forwardID2.
  destruct (rejected (gin.Param c "id")) eqn:Hr.
  - rewrite (validateID_rejected _ _ Hr). cbn [final]. by apply JSON_other_header.
  - destruct (validateID_accepted _ _ Hr) as (id & _ & _ & ->).
    destruct (rejected (gin.Param c name)) eqn:Hr2.
    + rewrite (validateID_rejected _ _ Hr2). cbn [final]. by apply JSON_other_header.
    + destruct (validateID_accepted _ _ Hr2) as (id2 & _ & _ & ->).
      by apply proxyRequest_keeps_header.
Qed.

Lemma route_keeps_header E p method pattern h c key :
  (method, pattern, h) ∈ routes (setupRoutes E p) →
  key ≠ "Content-Type" →
  (∀ r resp, Do (client p) r = inl resp → Resp_Header resp !! key = None) →
  w_header (c_Writer (final (h c))) !! key = w_header (c_Writer c) !! key.
Proof.
  intros Hin Hne Hup.
  each_route Hin;
    first [ by apply JSON_other_header
          | by apply proxyRequest_keeps_header
          | by apply forwardID_keeps_header
          | by apply forwardID2_keeps_header ].
Qed.

Lemma cors_key E key : is_Some (corsHeaders E !! key) → key ≠ "Content-Type".
Proof.
  intros [v Hv] ->. unfold corsHeaders in Hv.
  rewrite !lookup_insert_ne in Hv by discriminate. by rewrite lookup_empty in Hv.
Qed.

(** X16. The CORS headers reach the caller on every answer of the engine
    other than a trailing-slash redirect, whatever the handler did (relay,
    400, 404, 500, recovered panic), as long as the upstream itself sends no
    header of that name. *)
Theorem cors_headers_kept E req key :
  is_Some (corsHeaders E !! key) →
  (∀ r resp, RoundTrip E r = inl resp → Resp_Header resp !! key = None) →
  tsr E (URL req) = false →
  w_header (c_Writer (final (serve E req))) !! key = corsHeaders E !! key.
Proof.
  intros Hkey Hup Htsr. pose proof (cors_key E key Hkey) as Hne.
  unfold serve, ServeHTTP, handleHTTPRequest.
  change (Method (c_Request (reset req))) with (Method req).
  change (URL (c_Request (reset req))) with (URL req).
  rewrite (proj2 (middleware_table _ _)), chain_setupRoutes.
  destruct (String.eqb_spec (Method req) "OPTIONS") as [Hopt|Hopt].
  { rewrite tree_other_methods by (rewrite Hopt; discriminate).
    unfold serveError, gin.Recovery. rewrite cors_options by exact Hopt.
    set (c0 := withCORS E (set_status StatusNotFound (reset req))).
    assert (w_written (c_Writer c0) = false) as Hw
      by (unfold c0; by rewrite (proj1 (proj2 (proj2 (withCORS_frame _ _))))).
    destruct (AbortWithStatus_fields 204 c0 Hw ltac:(lia)) as (_ & _ & Hh & Hwr & _).
    rewrite Hwr. cbn [final]. rewrite Hh. unfold c0. by rewrite withCORS_header. }
  assert (w_header (c_Writer (final
            (serveError StatusNotFound default404Body
               (gin.Recovery (cors E notFound)) (reset req)))) !! key
          = corsHeaders E !! key) as Hunmatched.
  { destruct (notFound_answer E req Hopt) as (c' & -> & _ & _ & Hh & _).
    cbn [final]. rewrite Hh. by rewrite lookup_insert_ne. }
  destruct (tree _ (Method req)) as [|n0 ns] eqn:Htree; [exact Hunmatched|].
  destruct (from_option _ None (segments (URL req))) as [[h ps]|] eqn:Hfound.
  - destruct (segments (URL req)) as [ss|]; [|discriminate Hfound].
    cbn [from_option] in Hfound. rewrite <- Htree in Hfound.
    apply getValue_handler in Hfound as (n & Hn & <-).
    apply tree_handler in Hn as (pattern & Hroute).
    rewrite chain_setupRoutes. unfold gin.Recovery.
    rewrite cors_next by exact Hopt.
    set (c0 := withCORS E (set_Params ps (reset req))).
    pose proof (route_keeps_header E (NewProxyServer E) _ _ _ c0 key Hroute Hne Hup)
      as Hkeep.
    assert (w_header (c_Writer c0) = corsHeaders E) as Hh
      by (unfold c0; by rewrite withCORS_header).
    rewrite Hh in Hkeep.
    destruct (n.2 c0) as [c1|reason c1]; cbn [final] in Hkeep |- *;
      cbn [c_Writer set_Writer gin.WriteHeaderNow w_header];
      rewrite ?AbortWithStatus_header; exact Hkeep.
  - rewrite Htsr, andb_false_r. exact Hunmatched.
Qed.

Lemma cors_headers_kept_witness :
  w_header (c_Writer (final (serve (replying (textReply 503 "text/html" "<h1>busy</h1>"))
                               (get "/vtc/5/members"))))
    !! "Access-Control-Allow-Origin" = Some ["*"].
Proof.
  apply (cors_headers_kept (replying (textReply 503 "text/html" "<h1>busy</h1>"))
           (get "/vtc/5/members") "Access-Control-Allow-Origin").
  - by eexists.
  - intros r resp [= <-]. reflexivity.
  - reflexivity.
Defined.

(** ** The edges of validateID and of the JSON branch *)

Lemma all_digits_value s acc :
  all_digits s = true → 0 ≤ acc → ∃ n, strconv.digits acc s = Some n ∧ 0 ≤ n.
Proof.
  revert acc. induction s as [|ch s IH]; intros acc Hall Hacc.
  - exists acc. by split.
  - cbn [all_digits] in Hall. apply andb_true_iff in Hall as [Hd Hs].
    unfold is_digit in Hd. cbn [strconv.digits].
    destruct (strconv.digit ch) as [d|] eqn:Hdig; [|discriminate Hd].
    apply digit_bounds in Hdig. apply IH; [exact Hs|lia].
Qed.

Lemma digit_not_sign ch :
  is_digit ch = true → Ascii.eqb ch "-" = false ∧ Ascii.eqb ch "+" = false.
Proof. destruct ch as [[] [] [] [] [] [] [] []]; by vm_compute. Qed.

(** X17. A parameter made of decimal digits only is accepted exactly when
    its value fits [int]: above 2^63-1 it is answered 400 like a text that is
    no number at all. *)
Theorem numeric_parameter_decided d :
  numeric d = true →
  ∃ n, strconv.digits 0 d = Some n
       ∧ 0 ≤ n
       ∧ rejected d = (strconv.maxInt <? n).
Proof.
  intros Hnum. destruct d as [|ch t]; [discriminate Hnum|]. cbn [numeric] in Hnum.
  destruct (all_digits_value _ 0 Hnum ltac:(lia)) as (n & Hn & Hpos).
  exists n. split; [exact Hn|]. split; [exact Hpos|].
  cbn [all_digits] in Hnum. apply andb_true_iff in Hnum as [Hd _].
  destruct (digit_not_sign _ Hd) as [Hminus Hplus].
  unfold rejected. rewrite Atoi_cons, Hminus, Hplus, Hn. cbv zeta.
  assert (strconv.minInt ≤ n) as Hmin
    by (unfold strconv.minInt, strconv.intSize; lia).
  rewrite (proj2 (Z.leb_le _ _) Hmin). cbn [andb].
  destruct (Z.ltb_spec strconv.maxInt n) as [Hgt|Hle].
  - by rewrite (proj2 (Z.leb_gt _ _) Hgt).
  - rewrite (proj2 (Z.leb_le _ _) Hle). apply Z.ltb_ge. exact Hpos.
Qed.

Lemma numeric_parameter_decided_witness :
  ∃ n, strconv.digits 0 "9223372036854775808" = Some n
       ∧ 0 ≤ n
       ∧ rejected "9223372036854775808" = (strconv.maxInt <? n).
Proof. exact (numeric_parameter_decided "9223372036854775808" eq_refl). Defined.





(** ** From the inbound path to the upstream path *)

Lemma digit_no_slash ch : is_digit ch = true → negb (Ascii.eqb ch "/") = true.
Proof. destruct ch as [[] [] [] [] [] [] [] []]; by vm_compute. Qed.

Lemma all_digits_no_slash s : all_digits s = true → no_slash s = true.
Proof.
  induction s as [|ch s IH]; [done|]. cbn [all_digits no_slash]. intros Hall.
  apply andb_true_iff in Hall as [Hd Hs]. by rewrite (digit_no_slash _ Hd), (IH Hs).
Qed.

(** What [validateID] accepts fills one segment of a path. *)
Lemma accepted_one_segment v : rejected v = false → one_segment v = true.
Proof.
  unfold rejected, one_segment. destruct v as [|ch t]; [done|]. rewrite Atoi_cons.
  cbn [String.eqb negb andb no_slash].
  destruct (Ascii.eqb_spec ch "-") as [->|Hminus];
    [|destruct (Ascii.eqb_spec ch "+") as [->|Hplus]]; cbv zeta iota beta.
  - destruct t as [|ch' t']; [done|].
    destruct (strconv.digits 0 (String ch' t')) as [n|] eqn:Hd; [|done].
    intros _. apply (all_digits_no_slash _ (digits_all_digits _ _ _ Hd)).
  - destruct t as [|ch' t']; [done|].
    destruct (strconv.digits 0 (String ch' t')) as [n|] eqn:Hd; [|done].
    intros _. apply (all_digits_no_slash _ (digits_all_digits _ _ _ Hd)).
  - destruct (strconv.digits 0 (String ch t)) as [n|] eqn:Hd; [|done].
    intros _. apply (all_digits_no_slash (String ch t) (digits_all_digits _ _ _ Hd)).
Qed.

Lemma accepted_not_attending vals :
  Forall (λ v, rejected v = false) vals → "attending" ∉ vals.
Proof.
  intros Hall Hin. rewrite Forall_forall in Hall. by apply Hall in Hin.
Qed.

(** With accepted parameters, a proxied route's handler is [proxyRequest] on
    the instantiated pattern. *)
Lemma route_forwards E p method pattern h c :
  (method, pattern, h) ∈ routes (setupRoutes E p) →
  pattern ≠ "/health" →
  first_rejected c (pattern_params pattern) = None →
  h c = proxyRequest E p c (instantiate c pattern).
Proof.
  intros Hin Hnh Hfirst.
  each_route Hin; try done; eval_params Hfirst; cbn [first_rejected] in Hfirst;
    try reflexivity;
    destruct (rejected (gin.Param c "id")) eqn:Hid; try discriminate Hfirst;
    try (rewrite (forwardID_accepted _ _ _ _ Hid); reflexivity);
    match type of Hfirst with
    | (if rejected (gin.Param c ?n) then _ else _) = _ =>
        destruct (rejected (gin.Param c n)) eqn:Hsub; [discriminate Hfirst|];
        rewrite (forwardID2_accepted _ _ _ _ _ Hid Hsub); reflexivity
    end.
Qed.

Ltac split_values Hlen vals :=
  cbn [length] in Hlen;
  destruct vals as [|?v [|?v [|?v vals]]]; try discriminate Hlen;
  repeat match goal with
         | H : Forall _ (_ :: _) |- _ => apply Forall_cons in H as [? H]
         end.

(** The parameters the router binds for a path of accepted values all pass
    [validateID]. *)
Lemma bound_parameters_accepted E p method pattern h req vals :
  (method, pattern, h) ∈ routes (setupRoutes E p) →
  length vals = length (pattern_params pattern) →
  Forall (λ v, rejected v = false) vals →
  first_rejected (routed req (zip (pattern_params pattern) vals)) (pattern_params pattern)
  = None.
Proof.
  intros Hin Hlen Hall.
  each_route Hin; eval_pattern; split_values Hlen vals;
    cbn [first_rejected zip zip_with gin.Param routed set_Params c_Params gin.ByName
         String.eqb Ascii.eqb Bool.eqb];
    repeat match goal with
           | H : rejected ?v = false |- _ => rewrite H; clear H
           end;
    reflexivity.
Qed.

(** The instantiated pattern is the path of the pattern filled with the
    renderings of the bound values. *)
Lemma instantiate_routed E p method pattern h req vals :
  (method, pattern, h) ∈ routes (setupRoutes E p) →
  length vals = length (pattern_params pattern) →
  instantiate (routed req (zip (pattern_params pattern) vals)) pattern
  = path_of (fill (parse_pattern pattern) (canonical <$> vals)).
Proof.
  intros Hin Hlen. unfold instantiate.
  each_route Hin; eval_pattern; split_values Hlen vals; reflexivity.
Qed.

Lemma instantiate_withCORS E c pattern :
  instantiate (withCORS E c) pattern = instantiate c pattern.
Proof.
  unfold instantiate. induction (parse_pattern pattern) as [|sg pat IH]; [done|].
  cbn [foldr]. rewrite IH. f_equal. destruct sg as [s|name]; [done|].
  cbn [render_seg]. by rewrite Param_withCORS.
Qed.

(** X19. From the inbound path to the upstream path: a GET request for a
    registered pattern whose parameter places hold texts that [validateID]
    accepts enters [proxyRequest] with the same pattern filled with the
    decimal renderings of their values (007 and +7 go upstream as 7), so the
    one upstream request is for that path under [TruckersMPAPIBase]. *)
Theorem accepted_request_forwarded E req method pattern h vals :
  Method req = "GET" →
  (method, pattern, h) ∈ routes (setupRoutes E (NewProxyServer E)) →
  pattern ≠ "/health" →
  length vals = length (pattern_params pattern) →
  Forall (λ v, rejected v = false) vals →
  URL req = path_of (fill (parse_pattern pattern) vals) →
  serve E req =
  served (proxyRequest E (NewProxyServer E)
            (withCORS E (routed req (zip (pattern_params pattern) vals)))
            (path_of (fill (parse_pattern pattern) (canonical <$> vals)))).
Proof.
  intros Hm Hin Hnh Hlen Hall Hurl.
  rewrite (serve_lookup E req h (zip (pattern_params pattern) vals) Hm).
  2: { rewrite Hurl. apply (route_reached E method); [exact Hin|exact Hlen| |].
       - eapply Forall_impl; [exact Hall|]. apply accepted_one_segment.
       - by apply accepted_not_attending. }
  rewrite (route_forwards E _ method pattern h _ Hin Hnh).
  2: { rewrite first_rejected_withCORS.
       by apply (bound_parameters_accepted E (NewProxyServer E) method pattern h). }
  rewrite instantiate_withCORS.
  by rewrite (instantiate_routed E (NewProxyServer E) method pattern h req vals Hin Hlen).
Qed.

Lemma accepted_request_forwarded_witness :
  serve (replying timeout) (get "/vtc/007/role/+12") =
  served (proxyRequest (replying timeout) (NewProxyServer (replying timeout))
            (withCORS (replying timeout)
               (routed (get "/vtc/007/role/+12") [("id", "007"); ("role_id", "+12")]))
            "/vtc/7/role/12").
Proof.
  apply (accepted_request_forwarded (replying timeout) (get "/vtc/007/role/+12")
           "GET" "/vtc/:id/role/:role_id"
           (forwardID2 (replying timeout) (NewProxyServer (replying timeout))
              "role_id" "/vtc/%d/role/%d")
           ["007"; "+12"]).
  - reflexivity.
  - rewrite routes_table. apply list_elem_of_lookup. by exists 13%nat.
  - discriminate.
  - reflexivity.
  - repeat (apply Forall_cons; split; [reflexivity|]). apply Forall_nil_2.
  - reflexivity.
Defined.
